(** * Resume matcher: the response-parsing and fallback pipeline of
    [src/llm_engine.py] (class [LLMEngine]), embedded in Rocq.

  The functions of [LLMEngine] are translated one by one in [Module
  LLMEngine] under their source names.  They rest on a model of the part
  of the Python runtime they call:

  - [Text]: [str] as a list of Unicode code points, with the string
    methods the engine uses.  White space is the exact table of
    [str.isspace]; the case, digit and word tables are exact for code
    points below 256 and treat the code points above as caseless symbols.
  - [Exn]: exceptions as an error monad.
  - [Num]: [float] as IEEE 754 binary64 ([SpecFloat]), with [float(str)],
    [int(float)] and [repr(float)].
  - [Value]: the values [json.loads] can produce, truthiness, [str()].
  - [Json]: [json.loads] on text.
  - [Regex]: a backtracking matcher with the search order of [re].
  - [Md5]: [hashlib.md5(...).hexdigest()] and UTF-8 encoding.

  Interpreter resource limits (recursion depth, the optional limit on the
  digits of an integer literal) and console output are not modelled.

  [Module Utils] and [Module Main] embed the callers of the engine: the
  PDF helpers of [src/utils.py], with pdfplumber and ReportLab as
  parameters, and the button handler, the gauge and the keyword banner of
  the page script [src/main.py]; the widgets of the page are not modelled.

  The properties, at the end of the file, carry the number of the claim
  of the specification they settle (C1 to C10); the lemmas around them
  are shared. Further properties of the code (X1 to X26) follow them. *)

From Stdlib Require Import ZArith NArith List Ascii String Bool Lia SpecFloat.
From stdpp Require Import gmap.
Import ListNotations.

(* ===================================================================== *)
(** ** Text *)
(* ===================================================================== *)

Module Text.

Definition char := N.
Definition str := list N.

Definition ch (a : ascii) : char := N_of_ascii a.
Arguments ch a%_char.

(** A Python literal of ASCII characters. *)
Definition lit (s : string) : str := map N_of_ascii (list_ascii_of_string s).

(** The same, with every backquote of [s] standing for a double quote. *)
Definition DQ : char := 34%N.
Definition bq (s : string) : str :=
  map (fun c => if N.eqb c 96 then DQ else c) (lit s).

Definition between (lo hi c : N) : bool := (N.leb lo c && N.leb c hi)%bool.

(** [str.isspace] / [\s], for every code point. *)
Definition isspace (c : char) : bool :=
  (between 9 13 c || between 28 32 c || N.eqb c 133 || N.eqb c 160
   || N.eqb c 5760 || between 8192 8202 c || N.eqb c 8232 || N.eqb c 8233
   || N.eqb c 8239 || N.eqb c 8287 || N.eqb c 12288)%bool.

(** [\d]. *)
Definition isdigit (c : char) : bool := between 48 57 c.

Definition digit_val (c : char) : Z := Z.of_N c - 48.

Definition isupper (c : char) : bool :=
  (between 65 90 c || between 192 214 c || between 216 222 c)%bool.

Definition lower_char (c : char) : char :=
  if isupper c then (c + 32)%N else c.

(** [str.upper] may lengthen the text (sharp s) and leave Latin-1. *)
Definition upper_char (c : char) : str :=
  if (between 97 122 c || between 224 246 c || between 248 254 c)%bool
  then [(c - 32)%N]
  else if N.eqb c 223 then [83%N; 83%N]
  else if N.eqb c 181 then [924%N]
  else if N.eqb c 255 then [376%N]
  else [c].

Definition lower (s : str) : str := map lower_char s.
Definition upper (s : str) : str := flat_map upper_char s.

(** [\w]. *)
Definition isword (c : char) : bool :=
  (isdigit c || between 65 90 c || between 97 122 c || N.eqb c 95
   || N.eqb c 170 || N.eqb c 178 || N.eqb c 179 || N.eqb c 181
   || N.eqb c 185 || N.eqb c 186 || between 188 190 c
   || between 192 214 c || between 216 246 c || between 248 255 c)%bool.

Definition str_eqb (a b : str) : bool := bool_decide (a = b).

Fixpoint startswith (p s : str) : bool :=
  match p, s with
  | [], _ => true
  | _ :: _, [] => false
  | a :: p', b :: s' => N.eqb a b && startswith p' s'
  end.

(** [needle in hay]. *)
Fixpoint contains (needle hay : str) : bool :=
  startswith needle hay ||
  match hay with
  | [] => false
  | _ :: hay' => contains needle hay'
  end.

(** [s.find(sub)]: the first index, or -1. *)
Fixpoint find_from (sub s : str) (i : Z) : Z :=
  if startswith sub s then i
  else match s with
       | [] => (-1)%Z
       | _ :: s' => find_from sub s' (i + 1)
       end.
Definition find (sub s : str) : Z := find_from sub s 0.

(** [s.rfind(sub)]: the last index, or -1. *)
Fixpoint rfind_from (sub s : str) (i last : Z) : Z :=
  let last' := if startswith sub s then i else last in
  match s with
  | [] => last'
  | _ :: s' => rfind_from sub s' (i + 1) last'
  end.
Definition rfind (sub s : str) : Z := rfind_from sub s 0 (-1).

(** [s[a:b]] with Python's treatment of negative and out-of-range
    bounds. *)
Definition clip (len i : Z) : Z :=
  if (i <? 0)%Z then Z.max (i + len) 0 else Z.min i len.
Definition slice (s : str) (a b : Z) : str :=
  let len := Z.of_nat (length s) in
  let a' := clip len a in
  let b' := clip len b in
  firstn (Z.to_nat (b' - a')) (skipn (Z.to_nat a') s).

(** [s[:n]] and [s[n:]] for a constant [n >= 0]. *)
Definition str_upto (n : nat) (s : str) : str := firstn n s.
Definition str_from (n : nat) (s : str) : str := skipn n s.

Fixpoint lstrip_by (p : char -> bool) (s : str) : str :=
  match s with
  | c :: s' => if p c then lstrip_by p s' else s
  | [] => []
  end.
Definition rstrip_by (p : char -> bool) (s : str) : str :=
  rev (lstrip_by p (rev s)).

(** [s.strip()]. *)
Definition strip (s : str) : str := rstrip_by isspace (lstrip_by isspace s).

(** [s.lstrip(chars)]. *)
Definition mem_char (cs : str) (c : char) : bool := existsb (N.eqb c) cs.
Definition lstrip_chars (cs s : str) : str := lstrip_by (mem_char cs) s.

(** [s.split(sep)] for a non-empty [sep]: [skip] counts the characters of
    a separator just matched that are still to be passed over. *)
Fixpoint split_aux (sep : str) (skip : nat) (cur_rev : str) (s : str)
  : list str :=
  match s with
  | [] => [rev cur_rev]
  | c :: s' =>
      match skip with
      | S k => split_aux sep k cur_rev s'
      | O =>
          if startswith sep s
          then rev cur_rev :: split_aux sep (length sep - 1) [] s'
          else split_aux sep 0 (c :: cur_rev) s'
      end
  end.
Definition split (sep s : str) : list str := split_aux sep 0 [] s.

(** [s.split()]: the maximal runs of non-space characters. *)
Fixpoint split_ws_aux (cur_rev : str) (s : str) : list str :=
  match s with
  | [] => match cur_rev with [] => [] | _ => [rev cur_rev] end
  | c :: s' =>
      if isspace c
      then match cur_rev with
           | [] => split_ws_aux [] s'
           | _ => rev cur_rev :: split_ws_aux [] s'
           end
      else split_ws_aux (c :: cur_rev) s'
  end.
Definition split_ws (s : str) : list str := split_ws_aux [] s.

(** [s.replace(old, new)] for a one-character [old]. *)
Definition replace_char (old : char) (new : str) (s : str) : str :=
  flat_map (fun c => if N.eqb c old then new else [c]) s.

(** [sep.join(parts)]. *)
Fixpoint join (sep : str) (parts : list str) : str :=
  match parts with
  | [] => []
  | [p] => p
  | p :: ps => p ++ sep ++ join sep ps
  end.

(** Decimal digits of a non-negative integer, as [str(n)] prints them. *)
Fixpoint digits_aux (fuel : nat) (n : Z) (acc : str) : str :=
  match fuel with
  | O => acc
  | S f =>
      let acc' := Z.to_N (48 + n mod 10) :: acc in
      if (n <? 10)%Z then acc' else digits_aux f (n / 10) acc'
  end.
Definition digits_of (n : Z) : str :=
  digits_aux (S (Z.to_nat (Z.log2 n))) n [].

Definition hex_digit (n : Z) : char :=
  if (n <? 10)%Z then Z.to_N (48 + n) else Z.to_N (87 + n).

End Text.

(* ===================================================================== *)
(** ** Exceptions *)
(* ===================================================================== *)

Module Exn.
Import Text.

Inductive exn :=
| ValueError
| JSONDecodeError            (* a subclass of ValueError *)
| UnicodeEncodeError         (* a subclass of ValueError *)
| TypeError
| IndexError
| OverflowError
| AttributeError
| RequestException (msg : str)
| Exception (msg : str).

(** [except ValueError] also catches the subclasses. *)
Definition is_ValueError (e : exn) : bool :=
  match e with
  | ValueError | JSONDecodeError | UnicodeEncodeError => true
  | _ => false
  end.
Definition is_TypeError (e : exn) : bool :=
  match e with TypeError => true | _ => false end.
Definition is_IndexError (e : exn) : bool :=
  match e with IndexError => true | _ => false end.
Definition is_JSONDecodeError (e : exn) : bool :=
  match e with JSONDecodeError => true | _ => false end.
Definition is_RequestException (e : exn) : bool :=
  match e with RequestException _ => true | _ => false end.

Inductive result (A : Type) :=
| Ok (a : A)
| Raise (e : exn).
Arguments Ok {A} a.
Arguments Raise {A} e.

Definition bind {A B} (m : result A) (k : A -> result B) : result B :=
  match m with
  | Ok a => k a
  | Raise e => Raise e
  end.

(** [try: body / except classes: handler]. *)
Definition try_except {A} (body : result A) (catches : exn -> bool)
    (handler : exn -> result A) : result A :=
  match body with
  | Ok a => Ok a
  | Raise e => if catches e then handler e else Raise e
  end.

End Exn.

Notation "'let*' x ':=' m 'in' k" := (Exn.bind m (fun x => k))
(at level 10, x name, m at level 100, k at level 200).

(* ===================================================================== *)
(** ** Numbers: binary64 floats and their conversions *)
(* ===================================================================== *)

Module Num.
Import Text Exn.

Definition prec : Z := 53.
Definition emax : Z := 1024.

(** A Python [float]. *)
Definition pyfloat := spec_float.

(** The double nearest to [(-1)^neg * M * 10^E] (ties to even), which is
    what reading a decimal literal yields; too large a value reads as an
    infinity, too small a one as a zero. *)
Definition float_of_decimal (neg : bool) (M E : Z) : pyfloat :=
  if (M <=? 0)%Z then S754_zero neg
  else if (0 <=? E)%Z
  then binary_normalize prec emax (if neg then - (M * 10 ^ E) else M * 10 ^ E)%Z 0 neg
  else
    let '(q, e, l) := SFdiv_core_binary prec emax M 0 (10 ^ (- E))%Z 0 in
    binary_round_aux prec emax neg q e l.

(** Characters [float()] strips around its argument. *)
Definition float_space (c : char) : bool :=
  (isspace c && negb (between 28 31 c))%bool.

(** Underscores may only stand between two digits; [None] when one does
    not. *)
Fixpoint drop_underscores (prev : char) (s : str) : option str :=
  match s with
  | [] => if N.eqb prev 95 then None else Some []
  | c :: s' =>
      if N.eqb c 95
      then if isdigit prev then drop_underscores c s' else None
      else if (N.eqb prev 95 && negb (isdigit c))%bool then None
      else option_map (cons c) (drop_underscores c s')
  end.

Fixpoint span (p : char -> bool) (s : str) : str * str :=
  match s with
  | c :: s' => if p c then let '(a, b) := span p s' in (c :: a, b) else ([], s)
  | [] => ([], [])
  end.

Definition int_of_digits (ds : str) : Z :=
  fold_left (fun acc c => (10 * acc + digit_val c)%Z) ds 0%Z.

Definition istartswith (p s : str) : bool := startswith p (lower s).

Definition take_sign (s : str) : bool * str :=
  match s with
  | c :: s' => if N.eqb c 45 then (true, s')
               else if N.eqb c 43 then (false, s') else (false, s)
  | [] => (false, [])
  end.

(** The exponent part: [Some 0] when absent, [None] when what follows the
    mantissa is not a well-formed exponent. *)
Definition parse_exponent (s : str) : option Z :=
  match s with
  | [] => Some 0%Z
  | c :: s' =>
      if (N.eqb c 101 || N.eqb c 69)%bool then
        let '(neg, ds) := take_sign s' in
        let '(d, rest) := span isdigit ds in
        match d, rest with
        | _ :: _, [] => Some (if neg then - int_of_digits d else int_of_digits d)%Z
        | _, _ => None
        end
      else None
  end.

Definition parse_float_body (s : str) : option pyfloat :=
  let '(neg, s1) := take_sign s in
  if istartswith (lit "inf") s1 then
    let r := skipn 3 s1 in
    let r' := if istartswith (lit "inity") r then skipn 5 r else r in
    match r' with [] => Some (S754_infinity neg) | _ => None end
  else if istartswith (lit "nan") s1 then
    match skipn 3 s1 with [] => Some S754_nan | _ => None end
  else
    let '(ip, r1) := span isdigit s1 in
    let '(fp, r2) :=
      match r1 with
      | c :: r => if N.eqb c 46 then span isdigit r else ([], r1)
      | [] => ([], [])
      end in
    match ip ++ fp with
    | [] => None
    | m =>
        match parse_exponent r2 with
        | Some ex =>
            Some (float_of_decimal neg (int_of_digits m)
                                   (ex - Z.of_nat (length fp)))
        | None => None
        end
    end.

(** [float(s)] for a text [s]. The decimal digits of other scripts, which
    [float] reads as well, are not digits here. *)
Definition float_of_str (s : str) : result pyfloat :=
  let s' := rstrip_by float_space (lstrip_by float_space s) in
  match drop_underscores 0%N s' with
  | None => Raise ValueError
  | Some t =>
      match parse_float_body t with
      | Some f => Ok f
      | None => Raise ValueError
      end
  end.

(** [int(x)] for a float [x]: truncation towards zero. *)
Definition int_of_float (x : pyfloat) : result Z :=
  match x with
  | S754_zero _ => Ok 0%Z
  | S754_finite s m e =>
      let a := if (0 <=? e)%Z then (Zpos m * 2 ^ e)%Z
               else (Zpos m / 2 ^ (- e))%Z in
      Ok (if s then - a else a)%Z
  | S754_infinity _ => Raise OverflowError
  | S754_nan => Raise ValueError
  end.

Definition float_eqb (x y : pyfloat) : bool :=
  match x, y with
  | S754_finite s1 m1 e1, S754_finite s2 m2 e2 =>
      (Bool.eqb s1 s2 && Pos.eqb m1 m2 && Z.eqb e1 e2)%bool
  | _, _ => false
  end.

(** *** [repr(float)]: the shortest decimal that reads back as the same
    double, nearest to it among those of that length. *)

(** floor of [n/d * 10^t] and whether twice the remainder is below, at or
    above the divisor. *)
Definition scaled (n d t : Z) : Z * comparison :=
  let '(a, b) := if (0 <=? t)%Z then (n * 10 ^ t, d)%Z
                 else (n, d * 10 ^ (- t))%Z in
  ((a / b)%Z, ((a mod b) * 2 ?= b)%Z).

Fixpoint strip_zeros_rev (ds : str) : str :=
  match ds with
  | c :: ds' => if N.eqb c 48 then strip_zeros_rev ds' else ds
  | [] => []
  end.

(** Search the number of digits [17 - fuel + 1 ...]: the result is the
    digit string and the position of the decimal point. *)
Fixpoint shortest (fuel : nat) (p : Z) (x : pyfloat) (n d k : Z)
  : str * Z :=
  let t := (p - 1 - k)%Z in
  let '(lo, c) := scaled n d t in
  let up := (lo + 1)%Z in
  let '(first, second) :=
    match c with
    | Lt => (lo, up)
    | Gt => (up, lo)
    | Eq => if Z.even lo then (lo, up) else (up, lo)
    end in
  let ok D := float_eqb (float_of_decimal false D (- t)) x in
  let out D := (rev (strip_zeros_rev (rev (digits_of D))),
                (Z.of_nat (length (digits_of D)) - t)%Z) in
  match fuel with
  | O => out first
  | S f =>
      if ok first then out first
      else if ok second then out second
      else shortest f (p + 1) x n d k
  end.

Definition pad2 (n : Z) : str :=
  if (n <? 10)%Z then ch "0" :: digits_of n else digits_of n.

Definition format_repr (ds : str) (decpt : Z) : str :=
  let nd := Z.of_nat (length ds) in
  if ((-4 <? decpt) && (decpt <=? 16))%Z%bool then
    if (decpt <=? 0)%Z
    then lit "0." ++ repeat (ch "0") (Z.to_nat (- decpt)) ++ ds
    else if (nd <=? decpt)%Z
    then ds ++ repeat (ch "0") (Z.to_nat (decpt - nd)) ++ lit ".0"
    else firstn (Z.to_nat decpt) ds ++ ch "." :: skipn (Z.to_nat decpt) ds
  else
    let ex := (decpt - 1)%Z in
    firstn 1 ds
    ++ (match skipn 1 ds with [] => [] | r => ch "." :: r end)
    ++ ch "e" :: (if (ex <? 0)%Z then ch "-" else ch "+") :: pad2 (Z.abs ex).

Definition float_repr (x : pyfloat) : str :=
  match x with
  | S754_nan => lit "nan"
  | S754_infinity s => if s then lit "-inf" else lit "inf"
  | S754_zero s => if s then lit "-0.0" else lit "0.0"
  | S754_finite s m e =>
      let '(n, d) := if (0 <=? e)%Z then (Zpos m * 2 ^ e, 1)%Z
                     else (Zpos m, 2 ^ (- e))%Z in
      let k := (Z.of_nat (length (digits_of (fst (scaled n d 400)))) - 401)%Z in
      let '(ds, decpt) := shortest 17 1 (S754_finite false m e) n d k in
      (if s then [ch "-"] else []) ++ format_repr ds decpt
  end.

End Num.

(* ===================================================================== *)
(** ** Values *)
(* ===================================================================== *)

Module Value.
Import Text Exn Num.

(** What [json.loads] can return, and so what the engine receives under
    the type [Any]. A [dict] keeps its keys in insertion order. *)
#[warnings="-register-all"] Inductive pyval :=
| PNone
| PBool (b : bool)
| PInt (n : Z)
| PFloat (x : pyfloat)
| PStr (s : str)
| PList (items : list pyval)
| PDict (entries : list (str * pyval)).

(** [bool(v)], the test of [if v:]. *)
Definition truthy (v : pyval) : bool :=
  match v with
  | PNone => false
  | PBool b => b
  | PInt n => negb (Z.eqb n 0)
  | PFloat (S754_zero _) => false
  | PFloat _ => true
  | PStr s => match s with [] => false | _ => true end
  | PList l => match l with [] => false | _ => true end
  | PDict d => match d with [] => false | _ => true end
  end.

Definition is_str (v : pyval) : bool :=
  match v with PStr _ => true | _ => false end.
Definition is_dict (v : pyval) : bool :=
  match v with PDict _ => true | _ => false end.

(** [d.get(k, default)] and [d[k] = v]. *)
Fixpoint dict_get (d : list (str * pyval)) (k : str) (default : pyval)
  : pyval :=
  match d with
  | [] => default
  | (k', v) :: d' => if str_eqb k' k then v else dict_get d' k default
  end.

Fixpoint dict_set (d : list (str * pyval)) (k : str) (v : pyval)
  : list (str * pyval) :=
  match d with
  | [] => [(k, v)]
  | (k', v') :: d' =>
      if str_eqb k' k then (k', v) :: d' else (k', v') :: dict_set d' k v
  end.

Definition hex_pad (width : nat) (n : Z) : str :=
  map (fun i => hex_digit ((n / 16 ^ Z.of_nat i) mod 16))
      (rev (seq 0 width)).

(** [repr(s)] of a text. Code points from 256 on are taken as printable,
    surrogates apart. *)
Definition repr_char (quote c : char) : str :=
  if (N.eqb c quote || N.eqb c 92)%bool then [92%N; c]
  else if N.eqb c 9 then lit "\t"
  else if N.eqb c 10 then lit "\n"
  else if N.eqb c 13 then lit "\r"
  else if (N.ltb c 32 || between 127 160 c || N.eqb c 173)%bool
  then lit "\x" ++ hex_pad 2 (Z.of_N c)
  else if between 55296 57343 c then lit "\u" ++ hex_pad 4 (Z.of_N c)
  else [c].

Definition repr_str (s : str) : str :=
  let quote := if (mem_char s 39%N && negb (mem_char s DQ))%bool
               then DQ else 39%N in
  quote :: flat_map (repr_char quote) s ++ [quote].

Definition int_str (n : Z) : str :=
  if (n <? 0)%Z then ch "-" :: digits_of (- n) else digits_of n.

Fixpoint py_repr (v : pyval) : str :=
  match v with
  | PNone => lit "None"
  | PBool b => if b then lit "True" else lit "False"
  | PInt n => int_str n
  | PFloat x => float_repr x
  | PStr s => repr_str s
  | PList l => ch "[" :: join (lit ", ") (map py_repr l) ++ [ch "]"]
  | PDict d =>
      ch "{" :: join (lit ", ")
                  (map (fun kv => repr_str (fst kv) ++ lit ": " ++ py_repr (snd kv)) d)
        ++ [ch "}"]
  end.

(** [str(v)]. *)
Definition py_str (v : pyval) : str :=
  match v with
  | PStr s => s
  | _ => py_repr v
  end.

End Value.

(* ===================================================================== *)
(** ** json.loads *)
(* ===================================================================== *)

Module Json.
Import Text Exn Num Value.

Definition is_ws (c : char) : bool :=
  (N.eqb c 32 || N.eqb c 9 || N.eqb c 10 || N.eqb c 13)%bool.
Definition skip_ws (s : str) : str := lstrip_by is_ws s.

Definition hex_val (c : char) : option Z :=
  if isdigit c then Some (Z.of_N c - 48)%Z
  else if between 97 102 c then Some (Z.of_N c - 87)%Z
  else if between 65 70 c then Some (Z.of_N c - 55)%Z
  else None.

(** Four hexadecimal digits and the text after them. *)
Definition hex4 (s : str) : option (Z * str) :=
  match s with
  | a :: b :: c :: d :: r =>
      match hex_val a, hex_val b, hex_val c, hex_val d with
      | Some x, Some y, Some z, Some w =>
          Some ((((x * 16 + y) * 16 + z) * 16 + w)%Z, r)
      | _, _, _, _ => None
      end
  | _ => None
  end.

Definition simple_escape (c : char) : option char :=
  if N.eqb c DQ then Some DQ
  else if N.eqb c 92 then Some 92%N
  else if N.eqb c 47 then Some 47%N
  else if N.eqb c 98 then Some 8%N
  else if N.eqb c 102 then Some 12%N
  else if N.eqb c 110 then Some 10%N
  else if N.eqb c 114 then Some 13%N
  else if N.eqb c 116 then Some 9%N
  else None.

(** A [\uXXXX] escape, [s] being the text after the [u]: a high surrogate
    followed by an escaped low surrogate is one code point. *)
Definition unicode_escape (s : str) : option (char * str) :=
  match hex4 s with
  | None => None
  | Some (c, r) =>
      if ((55296 <=? c) && (c <=? 56319))%Z%bool then
        match r with
        | b :: u :: r2 =>
            if (N.eqb b 92 && N.eqb u 117 && (6 <? length r)%nat)%bool then
              match hex4 r2 with
              | None => None
              | Some (c2, r3) =>
                  if ((56320 <=? c2) && (c2 <=? 57343))%Z%bool
                  then Some (Z.to_N (65536 + (c - 55296) * 1024 + (c2 - 56320)), r3)
                  else Some (Z.to_N c, r)
              end
            else Some (Z.to_N c, r)
        | _ => Some (Z.to_N c, r)
        end
      else Some (Z.to_N c, r)
  end.

(** The body of a string literal, after its opening quote (strict mode:
    a raw control character is an error). *)
Fixpoint scan_string (fuel : nat) (s : str) (acc_rev : str)
  : option (str * str) :=
  match fuel, s with
  | S f, c :: r =>
      if N.eqb c DQ then Some (rev acc_rev, r)
      else if N.eqb c 92 then
        match r with
        | e :: r' =>
            if N.eqb e 117 then
              match unicode_escape r' with
              | Some (x, r'') => scan_string f r'' (x :: acc_rev)
              | None => None
              end
            else
              match simple_escape e with
              | Some x => scan_string f r' (x :: acc_rev)
              | None => None
              end
        | [] => None
        end
      else if N.ltb c 32 then None
      else scan_string f r (c :: acc_rev)
  | _, _ => None
  end.

(** A number at the head of [s]. *)
Definition match_number (s : str) : option (pyval * str) :=
  let '(neg, s1) :=
    match s with
    | c :: r => if N.eqb c 45 then (true, r) else (false, s)
    | [] => (false, [])
    end in
  let int_part :=
    match s1 with
    | c :: r =>
        if between 49 57 c then let '(ds, r') := span isdigit r in Some (c :: ds, r')
        else if N.eqb c 48 then Some ([c], r)
        else None
    | [] => None
    end in
  match int_part with
  | None => None
  | Some (ip, r1) =>
      let '(fp, r2) :=
        match r1 with
        | c :: r =>
            if N.eqb c 46
            then match span isdigit r with
                 | ([], _) => ([], r1)
                 | (ds, r') => (ds, r')
                 end
            else ([], r1)
        | [] => ([], [])
        end in
      let '(ex, r3) :=
        match r2 with
        | c :: r =>
            if (N.eqb c 101 || N.eqb c 69)%bool then
              let '(eneg, r') :=
                match r with
                | g :: t => if N.eqb g 45 then (true, t)
                            else if N.eqb g 43 then (false, t) else (false, r)
                | [] => (false, [])
                end in
              match span isdigit r' with
              | ([], _) => (None, r2)
              | (ds, r'') =>
                  (Some (if eneg then - int_of_digits ds else int_of_digits ds)%Z, r'')
              end
            else (None, r2)
        | [] => (None, [])
        end in
      match fp, ex with
      | [], None =>
          Some (PInt (if neg then - int_of_digits ip else int_of_digits ip)%Z, r3)
      | _, _ =>
          Some (PFloat (float_of_decimal neg (int_of_digits (ip ++ fp))
                          (match ex with Some e => e | None => 0 end
                           - Z.of_nat (length fp))%Z), r3)
      end
  end.

Definition after (p s : str) : str := skipn (length p) s.

Section Containers.
(** The parser of one value, at a smaller nesting depth. *)
Variable scan : str -> option (pyval * str).

(** The items of an array, [s] standing at the first of them. *)
Fixpoint parse_array (fuel : nat) (s : str) (acc_rev : list pyval)
  : option (pyval * str) :=
  match fuel with
  | O => None
  | S f =>
      match scan s with
      | None => None
      | Some (v, r) =>
          match skip_ws r with
          | c :: r' =>
              if N.eqb c 93 then Some (PList (rev (v :: acc_rev)), r')
              else if N.eqb c 44 then parse_array f (skip_ws r') (v :: acc_rev)
              else None
          | [] => None
          end
      end
  end.

(** The members of an object, [s] standing at the quote of a key. *)
Fixpoint parse_object (fuel : nat) (s : str) (acc : list (str * pyval))
  : option (pyval * str) :=
  match fuel, s with
  | S f, q :: s1 =>
      if N.eqb q DQ then
        match scan_string (length s1) s1 [] with
        | None => None
        | Some (key, r) =>
            match skip_ws r with
            | c :: r1 =>
                if N.eqb c 58 then
                  match scan (skip_ws r1) with
                  | None => None
                  | Some (v, r2) =>
                      let acc' := dict_set acc key v in
                      match skip_ws r2 with
                      | d :: r3 =>
                          if N.eqb d 125 then Some (PDict acc', r3)
                          else if N.eqb d 44 then parse_object f (skip_ws r3) acc'
                          else None
                      | [] => None
                      end
                  end
                else None
            | [] => None
            end
        end
      else None
  | _, _ => None
  end.
End Containers.

(** One JSON value at the head of [s]; [fuel] bounds the nesting depth. *)
Fixpoint scan_once (fuel : nat) (s : str) : option (pyval * str) :=
  match fuel, s with
  | S f, c :: r =>
      if N.eqb c DQ then
        match scan_string (length r) r [] with
        | Some (t, r') => Some (PStr t, r')
        | None => None
        end
      else if N.eqb c 123 then
        match skip_ws r with
        | d :: r' =>
            if N.eqb d 125 then Some (PDict [], r')
            else parse_object (scan_once f) (length r) (skip_ws r) []
        | [] => None
        end
      else if N.eqb c 91 then
        match skip_ws r with
        | d :: r' =>
            if N.eqb d 93 then Some (PList [], r')
            else parse_array (scan_once f) (length r) (skip_ws r) []
        | [] => None
        end
      else if startswith (lit "null") s then Some (PNone, after (lit "null") s)
      else if startswith (lit "true") s then Some (PBool true, after (lit "true") s)
      else if startswith (lit "false") s then Some (PBool false, after (lit "false") s)
      else if startswith (lit "NaN") s then Some (PFloat S754_nan, after (lit "NaN") s)
      else if startswith (lit "Infinity") s
      then Some (PFloat (S754_infinity false), after (lit "Infinity") s)
      else if startswith (lit "-Infinity") s
      then Some (PFloat (S754_infinity true), after (lit "-Infinity") s)
      else match_number s
  | _, _ => None
  end.

(** [json.loads(s)]: one value, white space around it, nothing else. *)
Definition loads (s : str) : result pyval :=
  match scan_once (S (length s)) (skip_ws s) with
  | Some (v, r) =>
      match skip_ws r with
      | [] => Ok v
      | _ => Raise JSONDecodeError
      end
  | None => Raise JSONDecodeError
  end.

End Json.

(* ===================================================================== *)
(** ** Regular expressions *)
(* ===================================================================== *)

Module Regex.
Import Text.

(** The constructs the engine's patterns use. [Rep lo hi r] is the greedy
    quantifier [r{lo,hi}], [hi = None] standing for no upper bound. *)
Inductive re :=
| Eps
| Chr (p : char -> bool)
| Seq (a b : re)
| Alt (a b : re)
| Rep (lo : nat) (hi : option nat) (a : re)
| Bound.                                 (* \b *)

Definition is_word_opt (c : option char) : bool :=
  match c with Some x => isword x | None => false end.

Definition hi_pred (hi : option nat) : option nat := option_map pred hi.
Definition hi_zero (hi : option nat) : bool :=
  match hi with Some O => true | _ => false end.

(** Backtracking match at the head of [s], [prev] being the character
    before it. The continuation [k] receives the position after the
    match; the result is the text left after the whole match. *)
Fixpoint mtch (r : re) (prev : option char) (s : str)
    (k : option char -> str -> option str) {struct r} : option str :=
  match r with
  | Eps => k prev s
  | Chr p =>
      match s with
      | c :: s' => if p c then k (Some c) s' else None
      | [] => None
      end
  | Seq a b => mtch a prev s (fun p' s' => mtch b p' s' k)
  | Alt a b =>
      match mtch a prev s k with
      | Some x => Some x
      | None => mtch b prev s k
      end
  | Bound =>
      if xorb (is_word_opt prev) (is_word_opt (head s)) then k prev s else None
  | Rep lo hi a =>
      (fix rep (fuel lo : nat) (hi : option nat) (prev : option char)
           (s : str) {struct fuel} : option str :=
         match fuel with
         | O => match lo with O => k prev s | S _ => None end
         | S f =>
             match lo with
             | S lo' => mtch a prev s (fun p' s' => rep f lo' (hi_pred hi) p' s')
             | O =>
                 if hi_zero hi then k prev s
                 else
                   match mtch a prev s
                           (fun p' s' =>
                              if (length s' <? length s)%nat
                              then rep f 0%nat (hi_pred hi) p' s'
                              else None) with
                   | Some x => Some x
                   | None => k prev s
                   end
             end
         end) (S (lo + length s)) lo hi prev s
  end.

(** [re.search(r, s)]: the leftmost match, as its text ([group(0)]). *)
Fixpoint search_from (r : re) (prev : option char) (s : str) : option str :=
  match mtch r prev s (fun _ rest => Some rest) with
  | Some rest => Some (firstn (length s - length rest) s)
  | None =>
      match s with
      | c :: s' => search_from r (Some c) s'
      | [] => None
      end
  end.
Definition search (r : re) (s : str) : option str := search_from r None s.

Definition found (r : re) (s : str) : bool :=
  match search r s with Some _ => true | None => false end.

(** Pattern builders. *)
Definition Lit1 (c : char) : re := Chr (N.eqb c).
Definition Lit (s : str) : re := fold_right (fun c r => Seq (Lit1 c) r) Eps s.
Definition Opt (a : re) : re := Rep 0 (Some 1%nat) a.
Definition Star (a : re) : re := Rep 0 None a.
Definition Plus (a : re) : re := Rep 1 None a.
Definition Exactly (n : nat) (a : re) : re := Rep n (Some n) a.
Definition AltLits (alts : list str) : re :=
  fold_right (fun s r => Alt (Lit s) r) (Chr (fun _ => false)) alts.
Definition Digit : re := Chr isdigit.
Definition Space : re := Chr isspace.

(** A literal letter under [re.IGNORECASE]; the long s is a case variant
    of [s]. *)
Definition ci_char (c : char) : re :=
  Chr (fun x => (N.eqb (lower_char x) c
                 || (N.eqb c 115 && N.eqb x 383))%bool).
Definition LitI (s : str) : re := fold_right (fun c r => Seq (ci_char c) r) Eps s.

End Regex.

(* ===================================================================== *)
(** ** UTF-8 and MD5 *)
(* ===================================================================== *)

Module Md5.
Import Text Exn.

(** [s.encode()]: UTF-8; a surrogate cannot be encoded. *)
Definition encode_char (c : char) : result (list Z) :=
  let z := Z.of_N c in
  if (z <? 128)%Z then Ok [z]
  else if (z <? 2048)%Z then Ok [192 + z / 64; 128 + z mod 64]%Z
  else if (z <? 65536)%Z then
    if between 55296 57343 c then Raise UnicodeEncodeError
    else Ok [224 + z / 4096; 128 + (z / 64) mod 64; 128 + z mod 64]%Z
  else Ok [240 + z / 262144; 128 + (z / 4096) mod 64;
           128 + (z / 64) mod 64; 128 + z mod 64]%Z.

Fixpoint encode (s : str) : result (list Z) :=
  match s with
  | [] => Ok []
  | c :: s' =>
      let* b := encode_char c in
      let* bs := encode s' in
      Ok (b ++ bs)
  end.

Definition w32 (x : Z) : Z := x mod 4294967296.
Definition rotl (x c : Z) : Z :=
  w32 (Z.lor (Z.shiftl x c) (Z.shiftr x (32 - c))).
Definition not32 (x : Z) : Z := Z.lxor x 4294967295.

Definition K : list Z :=
  [ 3614090360; 3905402710; 606105819; 3250441966; 4118548399; 1200080426;
    2821735955; 4249261313; 1770035416; 2336552879; 4294925233; 2304563134;
    1804603682; 4254626195; 2792965006; 1236535329; 4129170786; 3225465664;
    643717713; 3921069994; 3593408605; 38016083; 3634488961; 3889429448;
    568446438; 3275163606; 4107603335; 1163531501; 2850285829; 4243563512;
    1735328473; 2368359562; 4294588738; 2272392833; 1839030562; 4259657740;
    2763975236; 1272893353; 4139469664; 3200236656; 681279174; 3936430074;
    3572445317; 76029189; 3654602809; 3873151461; 530742520; 3299628645;
    4096336452; 1126891415; 2878612391; 4237533241; 1700485571; 2399980690;
    4293915773; 2240044497; 1873313359; 4264355552; 2734768916; 1309151649;
    4149444226; 3174756917; 718787259; 3951481745 ]%Z.

Definition shifts : list Z :=
  [ 7; 12; 17; 22; 7; 12; 17; 22; 7; 12; 17; 22; 7; 12; 17; 22;
    5; 9; 14; 20; 5; 9; 14; 20; 5; 9; 14; 20; 5; 9; 14; 20;
    4; 11; 16; 23; 4; 11; 16; 23; 4; 11; 16; 23; 4; 11; 16; 23;
    6; 10; 15; 21; 6; 10; 15; 21; 6; 10; 15; 21; 6; 10; 15; 21 ]%Z.

(** Little-endian bytes of a word, and back. *)
Definition le_bytes (n : nat) (x : Z) : list Z :=
  map (fun i => (x / 256 ^ Z.of_nat i) mod 256)%Z (seq 0 n).
Definition le_word (bs : list Z) : Z :=
  fold_right (fun b acc => b + 256 * acc)%Z 0%Z bs.

(** The message, the bit 1, zeros up to 56 modulo 64, and the length in
    bits on 8 bytes. *)
Definition pad (msg : list Z) : list Z :=
  let len := Z.of_nat (length msg) in
  let zeros := Z.to_nat ((55 - len) mod 64) in
  msg ++ 128%Z :: repeat 0%Z zeros ++ le_bytes 8 ((8 * len) mod 2 ^ 64).

Fixpoint chunks {A} (fuel n : nat) (l : list A) : list (list A) :=
  match fuel, l with
  | S f, _ :: _ => firstn n l :: chunks f n (skipn n l)
  | _, _ => []
  end.

Definition state := (Z * Z * Z * Z)%type.

Definition step (M : list Z) (st : state) (i : nat) : state :=
  let '(a, b, c, d) := st in
  let zi := Z.of_nat i in
  let '(f, g) :=
    if (zi <? 16)%Z then (Z.lor (Z.land b c) (Z.land (not32 b) d), zi)
    else if (zi <? 32)%Z
    then (Z.lor (Z.land d b) (Z.land (not32 d) c), (5 * zi + 1) mod 16)%Z
    else if (zi <? 48)%Z
    then (Z.lxor (Z.lxor b c) d, (3 * zi + 5) mod 16)%Z
    else (Z.lxor c (Z.lor b (not32 d)), (7 * zi) mod 16)%Z in
  let f' := w32 (f + a + nth i K 0 + nth (Z.to_nat g) M 0)%Z in
  (d, w32 (b + rotl f' (nth i shifts 0))%Z, b, c).

Definition block (st : state) (blk : list Z) : state :=
  let M := map le_word (chunks 16 4 blk) in
  let '(a, b, c, d) := st in
  let '(a', b', c', d') := fold_left (step M) (seq 0 64) st in
  (w32 (a + a'), w32 (b + b'), w32 (c + c'), w32 (d + d'))%Z.

Definition init : state := (1732584193, 4023233417, 2562383102, 271733878)%Z.

Definition digest (msg : list Z) : list Z :=
  let p := pad msg in
  let '(a, b, c, d) := fold_left block (chunks (length p) 64 p) init in
  le_bytes 4 a ++ le_bytes 4 b ++ le_bytes 4 c ++ le_bytes 4 d.

(** [hashlib.md5(msg).hexdigest()]. *)
Definition hexdigest (msg : list Z) : str :=
  flat_map (fun b => [hex_digit (b / 16); hex_digit (b mod 16)])%Z (digest msg).

End Md5.

(* ===================================================================== *)
(** ** The engine: [class LLMEngine] *)
(* ===================================================================== *)

Module LLMEngine.
Import Text Exn Num Value Json Regex Md5.

(** *** Records of the result *)

Record PersonalInfo := {
  name : str;
  email : str;
  phone : str
}.

Record ExperienceEntry := {
  role : str;
  company : str;
  duration : str;
  details : list str
}.

Record EducationEntry := {
  degree : str;
  institution : str;
  year : str
}.

Record AnalysisResult := {
  personal_info : PersonalInfo;
  summary : str;
  skills : list str;
  missing_keywords : list str;
  match_score : Z;
  experience : list ExperienceEntry;
  education : list EducationEntry;
  cover_letter : str
}.

(** *** The engine object and the model service *)

(** [self]: the model name and the cache ([self.cache = {}] at
    construction); the URL is a constant and the session carries no
    state the engine reads. *)
Record engine := {
  model_name : str;
  cache : gmap str AnalysisResult
}.

Definition __init__ (model : str) : engine :=
  {| model_name := model; cache := ∅ |}.

(** How the body of a streamed response ends: at its end, or with a
    transport error raised by [iter_lines]. *)
Inductive stream_end :=
| EndOfStream
| Broken (msg : str).

(** What [session.post] followed by [raise_for_status] gives: a
    [RequestException], or a response whose lines are then read. *)
Inductive post_outcome :=
| PostRaises (msg : str)
| Streams (lines : list str) (last : stream_end).

(** The model service as the engine sees it during one call: the status
    of [GET /api/tags] ([None] when the request raises) and the answer to
    a generation request for a model, a prompt and a token budget. *)
Record service := {
  tags_status : option Z;
  generate : str -> str -> Z -> post_outcome
}.

(** Requests sent to the service. *)
Inductive event :=
| Probe
| Generate (model prompt : str).

(** *** [_get_cache_key] *)

(** The local [combined]: the two prefixes around a bar. *)
Definition combined (resume_text job_desc : str) : str :=
  str_upto 1000 resume_text ++ lit "|" ++ str_upto 500 job_desc.

Definition _get_cache_key (resume_text job_desc : str) : result str :=
  let* bytes := encode (combined resume_text job_desc) in
  Ok (hexdigest bytes).

(** *** [_test_ollama_connection] *)

Definition _test_ollama_connection (svc : service) : bool :=
  match tags_status svc with
  | Some code => Z.eqb code 200
  | None => false
  end.

(** *** [_call_ollama] *)

(** The loop over [response.iter_lines()], the lines taken as decoded
    text. *)
Fixpoint read_lines (lines : list str) (last : stream_end)
    (response_text : str) : result str :=
  match lines with
  | [] =>
      match last with
      | EndOfStream => Ok response_text
      | Broken msg => Raise (RequestException msg)
      end
  | line :: rest =>
      match line with
      | [] => read_lines rest last response_text
      | _ =>
          match loads line with
          | Raise e =>
              if is_JSONDecodeError e
              then read_lines rest last response_text
              else Raise e
          | Ok (PDict chunk) =>
              match dict_get chunk (lit "response") (PStr []) with
              | PStr fragment =>
                  let response_text' := response_text ++ fragment in
                  if truthy (dict_get chunk (lit "done") (PBool false))
                  then Ok response_text'
                  else read_lines rest last response_text'
              | _ => Raise TypeError
              end
          | Ok _ => Raise AttributeError
          end
      end
  end.

Definition connection_error (cause : str) : exn :=
  Exception (lit "Ollama connection error: " ++ cause
             ++ lit ". Ensure Ollama is running with: ollama serve").

Definition _call_ollama (svc : service) (self : engine) (prompt : str)
    (max_tokens : Z) : result str :=
  let streamed :=
    match generate svc (model_name self) prompt max_tokens with
    | PostRaises msg => Raise (RequestException msg)
    | Streams lines last => read_lines lines last []
    end in
  let* response_text :=
    try_except streamed is_RequestException
      (fun e => match e with
                | RequestException msg => Raise (connection_error msg)
                | _ => Raise e
                end) in
  Ok (strip response_text).

(** *** [_extract_json_from_response] *)

(** [re.sub(r',(\s*[}\]])', r'\1', s)]: a comma followed by optional
    white space and a closing brace or bracket is removed. The white
    space and the closer hold no comma, so that resuming the scan right
    after the comma gives what resuming after the match gives. *)
Definition closer_follows (s : str) : bool :=
  match lstrip_by isspace s with
  | c :: _ => (N.eqb c 125 || N.eqb c 93)%bool
  | [] => false
  end.

Fixpoint remove_trailing_commas (s : str) : str :=
  match s with
  | [] => []
  | c :: s' =>
      if (N.eqb c 44 && closer_follows s')%bool
      then remove_trailing_commas s'
      else c :: remove_trailing_commas s'
  end.

Definition fence : str := lit "```".

Definition strategy_direct (text : str) : result pyval := loads text.

Definition strategy_code_block (text : str) : result pyval :=
  match nth_error (split fence text) 1 with
  | None => Raise IndexError
  | Some json_text =>
      let json_text :=
        if startswith (lit "json") json_text then str_from 4 json_text
        else json_text in
      loads (strip json_text)
  end.

Definition strategy_boundaries (text : str) (start end_ : Z) : result pyval :=
  loads (slice text start end_).

Definition strategy_fix (text : str) (start end_ : Z) : result pyval :=
  let fixed := slice text start end_ in
  let fixed := replace_char 39%N [DQ] fixed in
  let fixed := remove_trailing_commas fixed in
  loads fixed.

Definition _extract_json_from_response (text : str) : result pyval :=
  match text with
  | [] => Ok (PDict [])
  | _ =>
      let text := strip text in
      try_except (strategy_direct text) is_JSONDecodeError (fun _ =>
      let k2 (_ : unit) :=
        let start := find (lit "{") text in
        let end_ := (rfind (lit "}") text + 1)%Z in
        let guard := (negb (Z.eqb start (-1)) && (start <? end_)%Z)%bool in
        let k4 (_ : unit) :=
          if guard
          then try_except (strategy_fix text start end_) is_JSONDecodeError
                 (fun _ => Ok (PDict []))
          else Ok (PDict []) in
        if guard
        then try_except (strategy_boundaries text start end_)
               is_JSONDecodeError (fun _ => k4 tt)
        else k4 tt in
      if contains fence text
      then try_except (strategy_code_block text)
             (fun e => (is_IndexError e || is_JSONDecodeError e)%bool)
             (fun _ => k2 tt)
      else k2 tt)
  end.

(** *** [_extract_personal_info] *)

Definition ascii_alnum (c : char) : bool :=
  (between 65 90 c || between 97 122 c || isdigit c)%bool.

(** [\b[A-Za-z0-9._%+-]+@[A-Za-z0-9.-]+\.[A-Z|a-z]{2,}\b] *)
Definition email_pattern : re :=
  Seq Bound
    (Seq (Plus (Chr (fun c => ascii_alnum c || mem_char (lit "._%+-") c)%bool))
      (Seq (Lit1 (ch "@"))
        (Seq (Plus (Chr (fun c => ascii_alnum c || mem_char (lit ".-") c)%bool))
          (Seq (Lit1 (ch "."))
            (Seq (Rep 2 None
                    (Chr (fun c => between 65 90 c || N.eqb c 124
                                   || between 97 122 c)%bool))
               Bound))))).

(** [(\+\d{1,3}[-.\s]?)?\(?\d{3}\)?[-.\s]?\d{3}[-.\s]?\d{4}] *)
Definition phone_sep : re :=
  Opt (Chr (fun c => mem_char (lit "-.") c || isspace c)%bool).
Definition phone_pattern : re :=
  Seq (Opt (Seq (Lit1 (ch "+")) (Seq (Rep 1 (Some 3%nat) Digit) phone_sep)))
    (Seq (Opt (Lit1 (ch "(")))
      (Seq (Exactly 3 Digit)
        (Seq (Opt (Lit1 (ch ")")))
          (Seq phone_sep
            (Seq (Exactly 3 Digit)
              (Seq phone_sep (Exactly 4 Digit))))))).

Definition name_forbidden : list str :=
  [lit "@"; lit "http"; lit "/"; [92%N]].

(** The loop over [lines[:5]], leaving at the first line taken. *)
Fixpoint find_name (lines : list str) : str :=
  match lines with
  | [] => []
  | line :: rest =>
      let line := strip line in
      let words := length (split_ws line) in
      if ((2 <=? words)%nat && (words <=? 4)%nat
          && match line with c :: _ => isupper c | [] => false end
          && negb (existsb (fun bad => contains bad line) name_forbidden))%bool
      then line
      else find_name rest
  end.

Definition _extract_personal_info (resume_text : str) : PersonalInfo :=
  {| name := find_name (firstn 5 (split [10%N] resume_text));
     email := match search email_pattern resume_text with
              | Some m => m
              | None => []
              end;
     phone := match search phone_pattern resume_text with
              | Some m => m
              | None => []
              end |}.

(** *** [_build_analysis_prompt] *)

Definition _build_analysis_prompt (resume_text job_desc : str) : str :=
  let resume_snippet := str_upto 2000 resume_text in
  let job_snippet := str_upto 1500 job_desc in
  bq "You are an expert resume optimization specialist. Analyze this resume against the job description and extract REAL information.

RESUME:
"
  ++ resume_snippet
  ++ bq "

JOB DESCRIPTION:
"
  ++ job_snippet
  ++ bq "

YOUR TASK:
1. Extract the candidate's actual skills from their resume (NOT generic placeholders)
2. Identify 3-5 important keywords from the job description that are MISSING from the resume
3. Calculate match score: (skills candidate has / skills job requires) "
  ++ [195%N; 8212%N]
  ++ bq " 100
4. Write a professional 2-3 sentence summary tailored to THIS job
5. Generate 3-4 sentence cover letter highlighting relevant experience for THIS role

RESPOND WITH ONLY VALID JSON (no markdown, no code blocks, no explanation):
{
  `skills`: [`actual skill 1`, `actual skill 2`, `actual skill 3`, `actual skill 4`, `actual skill 5`],
  `missing_keywords`: [`missing keyword 1`, `missing keyword 2`, `missing keyword 3`],
  `match_score`: 75,
  `summary`: `Professional with X years of experience in Y, skilled in Z. Proven track record of ABC. Seeking to leverage expertise in DEF.`,
  `cover_letter`: `I am excited to apply for this position. With my background in X and Y, I have successfully Z. I am confident I can contribute to your team by ABC.`
}

CRITICAL RULES:
- Extract REAL skills from resume, not placeholders like `Skill1, Skill2`
- match_score must be integer 0-100
- missing_keywords should be specific technical skills/tools from job description
- summary and cover_letter must be realistic and specific to this job, not generic templates
- Output ONLY the JSON object, nothing else".

(** *** [_extract_list] *)

Definition nonempty {A} (s : list A) : bool :=
  match s with [] => false | _ => true end.

Definition _extract_list (data : pyval) : list str :=
  match data with
  | PList items =>
      map (fun item => strip (py_str item))
          (List.filter (fun item => truthy item && nonempty (strip (py_str item)))%bool
                  items)
  | PStr s =>
      map strip (List.filter (fun item => nonempty (strip item)) (split (lit ",") s))
  | _ => []
  end.

(** *** [_extract_score] *)

Definition _extract_score (score : pyval) : result Z :=
  try_except
    (let* x := float_of_str (py_str score) in
     let* n := int_of_float x in
     Ok (Z.max 0 (Z.min 100 n)))
    (fun e => is_ValueError e || is_TypeError e)%bool
    (fun _ => Ok 0%Z).

(** *** [_extract_skills_fallback] *)

Definition common_skills : list str :=
  map lit
    [ "Python"; "JavaScript"; "Java"; "C++"; "SQL"; "AWS"; "Azure"; "Docker";
      "Kubernetes"; "React"; "Node.js"; "Machine Learning"; "Data Analysis";
      "Project Management"; "Agile"; "Git"; "Linux"; "Communication";
      "Leadership" ]%string.

Definition placeholder_skills : list str :=
  map lit [ "Technical Skills"; "Problem Solving"; "Team Collaboration" ]%string.

(** [found_skills] after the loop over the catalog. *)
Definition found_skills (resume_text : str) : list str :=
  let resume_upper := upper resume_text in
  List.filter (fun skill => contains (upper skill) resume_upper) common_skills.

Definition _extract_skills_fallback (resume_text : str) : list str :=
  match found_skills resume_text with
  | [] => placeholder_skills
  | found => firstn 8 found
  end.

(** *** [_generate_fallback_summary], [_generate_fallback_cover_letter] *)

Definition _generate_fallback_summary (resume_text job_desc : str) : str :=
  lit "Experienced professional with demonstrated expertise in technical domains. "
  ++ lit "Proven ability to deliver results and collaborate effectively with cross-functional teams. "
  ++ lit "Seeking to contribute skills and drive innovation in a challenging environment.".

Definition nl : str := [10%N].

Definition _generate_fallback_cover_letter (name job_desc : str) : str :=
  lit "Dear Hiring Manager," ++ nl ++ nl
  ++ lit "I am writing to express my strong interest in this position. "
  ++ lit "With my background in technology and proven track record of success, "
  ++ lit "I am confident I can make valuable contributions to your team. "
  ++ lit "I look forward to discussing how my skills align with your needs."
  ++ nl ++ nl
  ++ lit "Best regards," ++ nl
  ++ (match name with [] => lit "Applicant" | _ => name end).

(** *** [_extract_experience] *)

Definition exp_pattern : re :=
  AltLits [lit "experience"; lit "employment"; lit "work history"].
Definition exp_end_pattern : re :=
  AltLits [lit "education"; lit "skills"; lit "certifications"].

(** [(\d{4})\s*-\s*(\d{4}|present)], case ignored. *)
Definition duration_pattern : re :=
  Seq (Exactly 4 Digit)
    (Seq (Star Space)
      (Seq (Lit1 (ch "-"))
        (Seq (Star Space) (Alt (Exactly 4 Digit) (LitI (lit "present")))))).

(** The bullet literal as the source file spells it: three code points. *)
Definition bullet : str := [226%N; 8364%N; 162%N].

(** [if current_exp: experience.append(current_exp)] *)
Definition flush (current_exp : option ExperienceEntry)
    (experience : list ExperienceEntry) : list ExperienceEntry :=
  match current_exp with
  | Some e => experience ++ [e]
  | None => experience
  end.

Definition new_entry (line : str) : ExperienceEntry :=
  {| role := strip line;
     company := lit "Company Name";
     duration := match search duration_pattern line with
                 | Some m => m
                 | None => []
                 end;
     details := [] |}.

Definition add_detail (e : ExperienceEntry) (detail : str) : ExperienceEntry :=
  {| role := role e; company := company e; duration := duration e;
     details := details e ++ [detail] |}.

(** The [for line in lines] loop; the result is [current_exp] and
    [experience] when the loop is left, by exhaustion or by [break]. *)
Fixpoint experience_loop (lines : list str) (in_experience : bool)
    (current_exp : option ExperienceEntry)
    (experience : list ExperienceEntry)
  : option ExperienceEntry * list ExperienceEntry :=
  match lines with
  | [] => (current_exp, experience)
  | line :: rest =>
      let line_lower := strip (lower line) in
      if found exp_pattern line_lower
      then experience_loop rest true current_exp experience
      else if (in_experience && found exp_end_pattern line_lower)%bool
      then (current_exp, flush current_exp experience)
      else if (in_experience && nonempty (strip line))%bool
      then
        if (existsb isupper line || found (Exactly 4 Digit) line)%bool
        then experience_loop rest in_experience (Some (new_entry line))
               (flush current_exp experience)
        else
          match current_exp with
          | Some e =>
              if (startswith bullet line || startswith (lit "-") line
                  || startswith (lit "*") line)%bool
              then
                let detail := strip (lstrip_chars (bullet ++ lit "-* ") line) in
                experience_loop rest in_experience
                  (Some (if nonempty detail then add_detail e detail else e))
                  experience
              else experience_loop rest in_experience current_exp experience
          | None => experience_loop rest in_experience current_exp experience
          end
      else experience_loop rest in_experience current_exp experience
  end.

Definition template_experience : ExperienceEntry :=
  {| role := lit "Professional Experience";
     company := lit "Previous Employer";
     duration := lit "Years";
     details := map lit [ "Led key projects and initiatives";
                          "Collaborated with cross-functional teams";
                          "Delivered measurable results" ]%string |}.

(** [experience] as it stands after the loop and the append that follows
    it. *)
Definition scanned_experience (resume_text : str) : list ExperienceEntry :=
  let lines := split nl resume_text in
  let '(current_exp, experience) := experience_loop lines false None [] in
  flush current_exp experience.

Definition _extract_experience (resume_text : str) : list ExperienceEntry :=
  let experience := scanned_experience resume_text in
  let experience :=
    match experience with
    | [] => [template_experience]
    | _ => experience
    end in
  firstn 3 experience.

(** *** [_extract_education] *)

Definition edu_pattern : re :=
  AltLits [lit "education"; lit "academic"; lit "degree"].
Definition edu_end_pattern : re :=
  AltLits [lit "experience"; lit "skills"; lit "certifications"].

Definition degree_words : list str :=
  map lit [ "bachelor"; "master"; "phd"; "degree"; "university"; "college" ]%string.

(** [\b(19|20)\d{2}\b] *)
Definition year_pattern : re :=
  Seq Bound
    (Seq (Alt (Lit (lit "19")) (Lit (lit "20")))
      (Seq (Exactly 2 Digit) Bound)).

Definition edu_entry_of (line : str) : EducationEntry :=
  {| degree := strip line;
     institution := [];
     year := match search year_pattern line with
             | Some m => m
             | None => []
             end |}.

Fixpoint education_loop (lines : list str) (in_education : bool)
    (education : list EducationEntry) : list EducationEntry :=
  match lines with
  | [] => education
  | line :: rest =>
      let line_lower := strip (lower line) in
      if found edu_pattern line_lower
      then education_loop rest true education
      else if (in_education && found edu_end_pattern line_lower)%bool
      then education
      else if (in_education && nonempty (strip line))%bool
      then
        if existsb (fun word => contains word line_lower) degree_words
        then education_loop rest in_education (education ++ [edu_entry_of line])
        else education_loop rest in_education education
      else education_loop rest in_education education
  end.

Definition template_education : EducationEntry :=
  {| degree := lit "Bachelor's Degree";
     institution := lit "University";
     year := [] |}.

(** [education] as it stands after the loop. *)
Definition scanned_education (resume_text : str) : list EducationEntry :=
  education_loop (split nl resume_text) false [].

Definition _extract_education (resume_text : str) : list EducationEntry :=
  let education := scanned_education resume_text in
  let education :=
    match education with
    | [] => [template_education]
    | _ => education
    end in
  firstn 2 education.

(** *** [_build_result] *)

(** [parsed] is whatever the normaliser returned: [parsed.get] exists on
    a [dict] only. *)
Definition _build_result (parsed : pyval) (personal_info : PersonalInfo)
    (resume_text job_desc : str) : result AnalysisResult :=
  let* fields :=
    if truthy parsed then
      match parsed with
      | PDict d =>
          let skills := _extract_list (dict_get d (lit "skills") (PList [])) in
          let missing_keywords :=
            _extract_list (dict_get d (lit "missing_keywords") (PList [])) in
          let* match_score :=
            _extract_score (dict_get d (lit "match_score") (PInt 0)) in
          let summary := strip (py_str (dict_get d (lit "summary") (PStr []))) in
          let cover_letter :=
            strip (py_str (dict_get d (lit "cover_letter") (PStr []))) in
          Ok (skills, missing_keywords, match_score, summary, cover_letter)
      | _ => Raise AttributeError
      end
    else Ok ([], [], 0%Z, [], []) in
  let '(skills, missing_keywords, match_score, summary, cover_letter) := fields in
  let skills :=
    if (negb (nonempty skills) || (length skills <? 3)%nat)%bool
    then _extract_skills_fallback resume_text
    else skills in
  let summary :=
    if nonempty summary then summary
    else _generate_fallback_summary resume_text job_desc in
  let cover_letter :=
    if nonempty cover_letter then cover_letter
    else _generate_fallback_cover_letter (name personal_info) job_desc in
  Ok {| personal_info := personal_info;
        summary := summary;
        skills := skills;
        missing_keywords := missing_keywords;
        match_score := match_score;
        experience := _extract_experience resume_text;
        education := _extract_education resume_text;
        cover_letter := cover_letter |}.

(** *** [analyze] *)

Definition cannot_connect (self : engine) : exn :=
  Exception (lit "Cannot connect to Ollama. Please ensure:" ++ nl
             ++ lit "1. Ollama is installed" ++ nl
             ++ lit "2. Ollama service is running: ollama serve" ++ nl
             ++ lit "3. Model is downloaded: ollama pull " ++ model_name self).

Definition with_cache (self : engine) (c : gmap str AnalysisResult) : engine :=
  {| model_name := model_name self; cache := c |}.

(** One call of [analyze]: what it returns or raises, the engine
    afterwards, and the requests it sent to the service. *)
Definition analyze (svc : service) (self : engine) (resume_text job_desc : str)
  : result AnalysisResult * engine * list event :=
  match _get_cache_key resume_text job_desc with
  | Raise e => (Raise e, self, [])
  | Ok cache_key =>
      match cache self !! cache_key with
      | Some cached => (Ok cached, self, [])
      | None =>
          if negb (_test_ollama_connection svc)
          then (Raise (cannot_connect self), self, [Probe])
          else
            let personal_info := _extract_personal_info resume_text in
            let prompt := _build_analysis_prompt resume_text job_desc in
            let sent := [Probe; Generate (model_name self) prompt] in
            match _call_ollama svc self prompt 2000 with
            | Raise e => (Raise e, self, sent)
            | Ok response =>
                match _extract_json_from_response response with
                | Raise e => (Raise e, self, sent)
                | Ok parsed_data =>
                    match _build_result parsed_data personal_info
                            resume_text job_desc with
                    | Raise e => (Raise e, self, sent)
                    | Ok result =>
                        (Ok result,
                         with_cache self (<[cache_key := result]> (cache self)),
                         sent)
                    end
                end
            end
      end
  end.

End LLMEngine.

(* ===================================================================== *)
(** ** Notions used in the statements *)
(* ===================================================================== *)

Import Text Exn Num Value Json Regex Md5 LLMEngine.

(** The coerced model-derived skill list of a mapping. *)
Definition coerced_skills (d : list (str * pyval)) : list str :=
  _extract_list (dict_get d (lit "skills") (PList [])).

(** The strategies of the normaliser that apply to a text, in the order
    they are tried, and the value of the first that succeeds (the empty
    mapping when none does). *)
Definition attempts (text : str) : list (result pyval) :=
  let t := strip text in
  let start := find (lit "{") t in
  let end_ := (rfind (lit "}") t + 1)%Z in
  [strategy_direct t]
  ++ (if contains fence t then [strategy_code_block t] else [])
  ++ (if (negb (Z.eqb start (-1)) && (start <? end_)%Z)%bool
      then [strategy_boundaries t start end_; strategy_fix t start end_]
      else []).


(** A text with a fenced block and, after it, an object between the first
    and the last brace. *)
Definition fenced_then_object : str :=
  lit "see " ++ fence ++ lit "1" ++ fence ++ bq " and {`a`: 2}".

(** The separator of the cache key text. *)
Definition bar : char := 124%N.

(** Two resumes that share their first 1000 characters and differ after
    them. *)
Definition long_resume (ending : str) : str := repeat (ch "a") 1000 ++ ending.

(** The keys of the parsed mapping the result builder reads. *)
Definition model_keys : list str :=
  map lit [ "skills"; "missing_keywords"; "match_score"; "summary";
            "cover_letter" ]%string.

(** A candidate with no personal information found. *)
Definition nobody : PersonalInfo := {| name := []; email := []; phone := [] |}.

(** List coercion as the specification words it: every item converted to
    trimmed text, the empty texts dropped. *)
Definition list_coercion_as_claimed (data : pyval) : list str :=
  match data with
  | PList items =>
      List.filter nonempty (map (fun item => strip (py_str item)) items)
  | PStr s => List.filter nonempty (map strip (split (lit ",") s))
  | _ => []
  end.

(** A service that answers the probe and streams one chunk holding the
    whole completion; a service that is down; an engine with a cold
    cache. *)
Definition demo_completion : str :=
  bq "{`response`: `{\`skills\`: [\`Python\`, \`SQL\`, \`Git\`], \`match_score\`: \`85\`}`, `done`: true}".
Definition demo_service : service :=
  {| tags_status := Some 200%Z;
     generate := fun _ _ _ => Streams [demo_completion] EndOfStream |}.
Definition down_service : service :=
  {| tags_status := None;
     generate := fun _ _ _ => PostRaises (lit "connection refused") |}.
Definition demo_engine : engine := __init__ (lit "orca-mini:latest").
Definition demo_resume : str := lit "Jane A. Doe
jane.doe@example.com
Experience
Engineer at ACME 2019 - Present
Education
BSc, University of Somewhere 2015".
Definition demo_job : str := lit "Python developer".

(** The result built from an empty mapping for a resume that only names
    Python. *)
Definition python_only_resume : str := lit "I write Python.".
Definition python_only_result : AnalysisResult :=
  {| personal_info := nobody;
     summary := _generate_fallback_summary python_only_resume [];
     skills := [lit "Python"];
     missing_keywords := [];
     match_score := 0;
     experience := [template_experience];
     education := [template_education];
     cover_letter := _generate_fallback_cover_letter [] [] |}.

(* ===================================================================== *)
(** ** The result as a dictionary *)
(* ===================================================================== *)

(** The dictionaries [_build_result] and the extractors build, key by key
    in the order of the source: what the page script and the PDF writer
    read with [get]. *)
Definition personal_info_dict (info : PersonalInfo) : pyval :=
  PDict [(lit "name", PStr (name info));
         (lit "email", PStr (email info));
         (lit "phone", PStr (phone info))].

Definition experience_dict (e : ExperienceEntry) : pyval :=
  PDict [(lit "role", PStr (role e));
         (lit "company", PStr (company e));
         (lit "duration", PStr (duration e));
         (lit "details", PList (map PStr (details e)))].

Definition education_dict (e : EducationEntry) : pyval :=
  PDict [(lit "degree", PStr (degree e));
         (lit "institution", PStr (institution e));
         (lit "year", PStr (year e))].

Definition result_dict (r : AnalysisResult) : list (str * pyval) :=
  [(lit "personal_info", personal_info_dict (personal_info r));
   (lit "summary", PStr (summary r));
   (lit "skills", PList (map PStr (skills r)));
   (lit "missing_keywords", PList (map PStr (missing_keywords r)));
   (lit "match_score", PInt (match_score r));
   (lit "experience", PList (map experience_dict (experience r)));
   (lit "education", PList (map education_dict (education r)));
   (lit "cover_letter", PStr (cover_letter r))].

(* ===================================================================== *)
(** ** The PDF helpers ([src/utils.py]) *)
(* ===================================================================== *)

Module Utils.

(** *** [extract_text_from_pdf] *)

(** What pdfplumber does with the uploaded file: a page gives a text or
    [None], or its extraction raises; opening the file, listing its pages
    or closing it may raise instead. *)
Inductive page :=
| Extracts (extracted : option str)
| PageRaises (msg : str).

Inductive pdf_file :=
| Unreadable (msg : str)
| Opens (pages : list page).

Definition no_pages_message : str := lit "Error: PDF has no pages".
Definition no_text_message : str :=
  lit "Error: No text could be extracted from PDF. The file might be scanned or image-based.".
Definition error_reading (cause : str) : str :=
  lit "Error reading PDF: " ++ cause
  ++ lit ". Please ensure the file is a valid PDF and not password-protected.".

(** The loop over [pdf.pages]. *)
Fixpoint page_texts (pages : list page) (text : str) : str :=
  match pages with
  | [] => text
  | Extracts (Some extracted) :: rest =>
      if nonempty extracted
      then page_texts rest (text ++ extracted ++ nl)
      else page_texts rest text
  | Extracts None :: rest => page_texts rest text
  | PageRaises _ :: rest => page_texts rest text
  end.

Definition extract_text_from_pdf (file : pdf_file) : str :=
  match file with
  | Unreadable msg => error_reading msg
  | Opens pages =>
      match pages with
      | [] => no_pages_message
      | _ =>
          let text := page_texts pages [] in
          if negb (nonempty (strip text)) then no_text_message
          else strip text
      end
  end.

(** *** [create_pdf] *)

(** The paragraph styles the function defines. *)
Inductive style :=
| name_style
| contact_style
| section_header_style
| body_style
| bullet_style
| job_title_style
| company_style
| date_style.

(** The flowables handed to [doc.build]; a spacer has its width in points
    and its height in hundredths of an inch. *)
Inductive flowable :=
| Paragraph (text : str) (st : style)
| Spacer (width : Z) (height : Z).

(** ReportLab as the function meets it: [Paragraph(text, style)] parses
    the markup of [text] and raises when it is malformed; [doc.build]
    lays the flowables out and writes the file, or raises. *)
Record reportlab := {
  accepts : str -> style -> bool;
  builds : str -> list flowable -> bool
}.

Definition paragraph (rl : reportlab) (text : str) (st : style)
  : result flowable :=
  if accepts rl text st then Ok (Paragraph text st) else Raise ValueError.

(** [v.get]: on a [dict] only. *)
Definition as_mapping (v : pyval) : result (list (str * pyval)) :=
  match v with
  | PDict d => Ok d
  | _ => Raise AttributeError
  end.

(** [d.get(k, default).strip()]: on a text only. *)
Definition get_text (d : list (str * pyval)) (k default : str) : result str :=
  match dict_get d k (PStr default) with
  | PStr s => Ok (strip s)
  | _ => Raise AttributeError
  end.

(** [re.sub(r'[^\w\s-]', '', name)] *)
Definition keep_safe (name : str) : str :=
  List.filter (fun c => (isword c || isspace c || N.eqb c 45)%bool) name.

(** [re.sub(r'[-\s]+', '_', safe_name)]: [in_run] tells that the
    character before belongs to a run already replaced. *)
Fixpoint underscore_runs (in_run : bool) (s : str) : str :=
  match s with
  | [] => []
  | c :: s' =>
      if (N.eqb c 45 || isspace c)%bool
      then if in_run then underscore_runs true s'
           else 95%N :: underscore_runs true s'
      else c :: underscore_runs false s'
  end.

(** [if text: elements.append(Paragraph(text, style))] *)
Definition add_if_text (rl : reportlab) (text : str) (st : style)
    (elements : list flowable) : result (list flowable) :=
  if nonempty text
  then let* p := paragraph rl text st in Ok (elements ++ [p])
  else Ok elements.

(** The bullet character of this file, U+2022. *)
Definition bullet_dot : char := 8226%N.

(** The loop over [details]. *)
Fixpoint detail_paragraphs (rl : reportlab) (details : list pyval)
    (elements : list flowable) : result (list flowable) :=
  match details with
  | [] => Ok elements
  | detail :: rest =>
      if (truthy detail && nonempty (strip (py_str detail)))%bool
      then
        let bullet_text := bullet_dot :: ch " " :: strip (py_str detail) in
        let* p := paragraph rl bullet_text bullet_style in
        detail_paragraphs rl rest (elements ++ [p])
      else detail_paragraphs rl rest elements
  end.

(** The loop over [enumerate(experience)]; [len_experience] is
    [len(experience)]. *)
Fixpoint experience_paragraphs (rl : reportlab) (len_experience idx : nat)
    (experience : list pyval) (elements : list flowable)
  : result (list flowable) :=
  match experience with
  | [] => Ok elements
  | exp :: rest =>
      match exp with
      | PDict e =>
          let* role := get_text e (lit "role") [] in
          let* company := get_text e (lit "company") [] in
          let* duration := get_text e (lit "duration") [] in
          let* elements := add_if_text rl role job_title_style elements in
          let* elements := add_if_text rl company company_style elements in
          let* elements := add_if_text rl duration date_style elements in
          let* elements :=
            match dict_get e (lit "details") (PList []) with
            | PList details => detail_paragraphs rl details elements
            | _ => Ok elements
            end in
          let elements :=
            if (idx <? len_experience - 1)%nat
            then elements ++ [Spacer 1 8]
            else elements in
          experience_paragraphs rl len_experience (S idx) rest elements
      | _ => experience_paragraphs rl len_experience (S idx) rest elements
      end
  end.

(** The loop over [education]. *)
Fixpoint education_paragraphs (rl : reportlab) (education : list pyval)
    (elements : list flowable) : result (list flowable) :=
  match education with
  | [] => Ok elements
  | edu :: rest =>
      match edu with
      | PDict e =>
          let* degree := get_text e (lit "degree") [] in
          let* institution := get_text e (lit "institution") [] in
          let* year := get_text e (lit "year") [] in
          let* elements := add_if_text rl degree job_title_style elements in
          let* elements := add_if_text rl institution company_style elements in
          let* elements := add_if_text rl year date_style elements in
          education_paragraphs rl rest (elements ++ [Spacer 1 5])
      | _ => education_paragraphs rl rest elements
      end
  end.

(** The body of the [try] up to [doc.build]: the file name and the
    flowables. *)
Definition pdf_document (rl : reportlab) (data : list (str * pyval))
  : result (str * list flowable) :=
  let* personal_info :=
    as_mapping (dict_get data (lit "personal_info") (PDict [])) in
  let* name := get_text personal_info (lit "name") [] in
  let* name :=
    if negb (nonempty name)
    then get_text data (lit "name") (lit "Resume")
    else Ok name in
  let name := if negb (nonempty name) then lit "Optimized_Resume" else name in
  let safe_name := keep_safe name in
  let safe_name := underscore_runs false safe_name in
  let filename := safe_name ++ lit "_Resume.pdf" in
  let* title := paragraph rl name name_style in
  let elements := [title] in
  let* email := get_text personal_info (lit "email") [] in
  let* phone := get_text personal_info (lit "phone") [] in
  let contact_parts :=
    (if nonempty email then [email] else [])
    ++ (if nonempty phone then [phone] else []) in
  let* elements :=
    if nonempty contact_parts
    then
      let contact_text := join [32%N; bullet_dot; 32%N] contact_parts in
      let* p := paragraph rl contact_text contact_style in
      Ok (elements ++ [p])
    else Ok (elements ++ [Spacer 1 15]) in
  let* summary := get_text data (lit "summary") [] in
  let* elements :=
    if nonempty summary
    then
      let* h := paragraph rl (lit "PROFESSIONAL SUMMARY") section_header_style in
      let* p := paragraph rl summary body_style in
      Ok (elements ++ [h; p; Spacer 1 10])
    else Ok elements in
  let* elements :=
    match dict_get data (lit "skills") (PList []) with
    | PList ((_ :: _) as skills) =>
        let skills_list :=
          map (fun s => strip (py_str s))
            (List.filter
               (fun s => (truthy s && nonempty (strip (py_str s)))%bool)
               skills) in
        if nonempty skills_list
        then
          let* h := paragraph rl (lit "KEY SKILLS") section_header_style in
          let skills_text := join (lit ", ") skills_list in
          let* p := paragraph rl skills_text body_style in
          Ok (elements ++ [h; p; Spacer 1 10])
        else Ok elements
    | _ => Ok elements
    end in
  let* elements :=
    match dict_get data (lit "experience") (PList []) with
    | PList ((_ :: _) as experience) =>
        let* h :=
          paragraph rl (lit "PROFESSIONAL EXPERIENCE") section_header_style in
        let* elements :=
          experience_paragraphs rl (length experience) 0 experience
            (elements ++ [h]) in
        Ok (elements ++ [Spacer 1 10])
    | _ => Ok elements
    end in
  let* elements :=
    match dict_get data (lit "education") (PList []) with
    | PList ((_ :: _) as education) =>
        let* h := paragraph rl (lit "EDUCATION") section_header_style in
        education_paragraphs rl education (elements ++ [h])
    | _ => Ok elements
    end in
  Ok (filename, elements).


(** *** [validate_resume_data] *)

Definition required_fields : list str :=
  map lit [ "personal_info"; "summary"; "skills" ]%string.

(** [field in data] *)
Definition has_key (data : list (str * pyval)) (field : str) : bool :=
  existsb (fun kv => str_eqb (fst kv) field) data.

Definition validate_resume_data (data : list (str * pyval)) : result bool :=
  if negb (forallb (has_key data) required_fields) then Ok false
  else
    let* info := as_mapping (dict_get data (lit "personal_info") (PDict [])) in
    if negb (truthy (dict_get info (lit "name") PNone)) then Ok false
    else Ok true.

End Utils.

(* ===================================================================== *)
(** ** The page script ([src/main.py]) *)
(* ===================================================================== *)

Module Main.
Import Utils.

(** *** The button handler *)

(** What a click on the button ends in: one of the two warnings, the
    extraction error, the processing error of the [except] clause, or the
    result stored in the session. *)
Inductive outcome :=
| MissingInput
| ShortJobDescription
| ExtractionFailed
| ProcessingError (e : exn)
| Analysed (raw_text : str) (result : AnalysisResult).

(** The test applied to the extracted text. *)
Definition extraction_failed (raw_text : str) : bool :=
  (contains (lit "Error reading PDF") raw_text
   || (length (strip raw_text) <? 50)%nat)%bool.

(** The handler: the outcome and the requests sent to the model service.
    [uploaded_file] is [None] when no file was chosen. *)
Definition on_click (uploaded_file : option pdf_file)
    (job_desc model_choice : str) (svc : service) : outcome * list event :=
  match uploaded_file with
  | Some file =>
      if nonempty job_desc
      then
        if (length (strip job_desc) <? 50)%nat
        then (ShortJobDescription, [])
        else
          let raw_text := extract_text_from_pdf file in
          if extraction_failed raw_text
          then (ExtractionFailed, [])
          else
            let engine := __init__ model_choice in
            match analyze svc engine raw_text job_desc with
            | (Ok result, _, sent) => (Analysed raw_text result, sent)
            | (Raise e, _, sent) => (ProcessingError e, sent)
            end
      else (MissingInput, [])
  | None => (MissingInput, [])
  end.

(** *** The match gauge *)

(** [str.isdigit] on one character (the table below 256). *)
Definition py_isdigit (c : char) : bool :=
  (isdigit c || N.eqb c 178 || N.eqb c 179 || N.eqb c 185)%bool.

(** [int(s)] for a text of digits and dots, all that the test lets
    through: the decimal value when every character is one of 0 to 9. *)
Definition int_of_text (s : str) : result Z :=
  if (nonempty s && forallb isdigit s)%bool then Ok (int_of_digits s)
  else Raise ValueError.

(** The score the gauge shows. *)
Definition gauge_score (data : list (str * pyval)) : result Z :=
  let score := dict_get data (lit "match_score") (PInt 0) in
  let digits := replace_char (ch ".") [] (py_str score) in
  match score with
  | PStr s =>
      if (nonempty digits && forallb py_isdigit digits)%bool
      then int_of_text s else Ok 0%Z
  | PFloat x =>
      if (nonempty digits && forallb py_isdigit digits)%bool
      then int_of_float x else Ok 0%Z
  | _ => Ok 0%Z
  end.

(** The message under the gauge. *)
Inductive verdict := Excellent | Good | Moderate | Low.

Definition interpretation (score : Z) : verdict :=
  if (80 <=? score)%Z then Excellent
  else if (60 <=? score)%Z then Good
  else if (40 <=? score)%Z then Moderate
  else Low.

(** *** The missing keywords *)



End Main.

Import Utils Main.

(* ===================================================================== *)
(** ** Notions used in the further properties *)
(* ===================================================================== *)

(** Ends of a text free of white space. *)
Definition starts_clean (s : str) : Prop :=
  match s with c :: _ => isspace c = false | [] => True end.
Definition trimmed (s : str) : Prop := starts_clean s /\ starts_clean (rev s).

(** A clean item of a list field: not empty, no white space at its ends. *)
Definition clean_item (s : str) : Prop := s <> [] /\ trimmed s.










(** A line says one of the words when its trimmed lower-case form holds
    it. *)
Definition says (words : list str) (line : str) : bool :=
  existsb (fun w => contains w (strip (lower line))) words.

Definition exp_words : list str :=
  [lit "experience"; lit "employment"; lit "work history"].
Definition exp_end_words : list str :=
  [lit "education"; lit "skills"; lit "certifications"].
Definition edu_words : list str :=
  [lit "education"; lit "academic"; lit "degree"].
Definition edu_end_words : list str :=
  [lit "experience"; lit "skills"; lit "certifications"].

(** A line that closes the experience (education) section once it is
    open: it says an end word and is not itself a header. *)
Definition exp_closer (line : str) : bool :=
  (says exp_end_words line && negb (says exp_words line))%bool.
Definition edu_closer (line : str) : bool :=
  (says edu_end_words line && negb (says edu_words line))%bool.






(** A result as the interface and the PDF writer expect it. *)
Definition well_formed (r : AnalysisResult) : Prop :=
  (0 <= match_score r <= 100)%Z
  /\ clean_item (summary r)
  /\ cover_letter r <> []
  /\ skills r <> [] /\ Forall clean_item (skills r)
  /\ Forall clean_item (missing_keywords r)
  /\ (1 <= length (experience r) <= 3)%nat
  /\ (1 <= length (education r) <= 2)%nat.

(** The result built when the completion gives nothing to use. *)
Definition fallback_result (resume_text job_desc : str) : AnalysisResult :=
  {| personal_info := _extract_personal_info resume_text;
     summary := _generate_fallback_summary resume_text job_desc;
     skills := _extract_skills_fallback resume_text;
     missing_keywords := [];
     match_score := 0;
     experience := _extract_experience resume_text;
     education := _extract_education resume_text;
     cover_letter :=
       _generate_fallback_cover_letter
         (name (_extract_personal_info resume_text)) job_desc |}.

(** A service whose completion is the JSON list [[1, 2]]. *)
Definition list_service : service :=
  {| tags_status := Some 200%Z;
     generate := fun _ _ _ =>
       Streams [bq "{`response`: `[1, 2]`, `done`: true}"] EndOfStream |}.

(** A stream that goes on after its final chunk and then breaks. *)
Definition final_chunk : str := bq "{`response`: `{}`, `done`: true}".
Definition late_chunk : str := bq "{`response`: ` more`}".
Definition chatty_service : service :=
  {| tags_status := Some 200%Z;
     generate := fun _ _ _ =>
       Streams [final_chunk; late_chunk] (Broken (lit "reset")) |}.

(** The comma of the list written as one text. *)
Definition comma : char := 44%N.





(** A page that gives no text: nothing, white space only, or an error. *)
Definition blank_page (p : page) : bool :=
  match p with
  | Extracts (Some extracted) => forallb isspace extracted
  | Extracts None => true
  | PageRaises _ => true
  end.

(** The texts of the section headers among the flowables, in order. *)
Definition headers (elements : list flowable) : list str :=
  flat_map (fun f => match f with
                     | Paragraph text section_header_style => [text]
                     | _ => []
                     end) elements.

(** The title of the PDF of a result: the candidate's name, or "Resume". *)
Definition pdf_title (r : AnalysisResult) : str :=
  if nonempty (strip (name (personal_info r)))
  then strip (name (personal_info r))
  else lit "Resume".

(** A ReportLab that accepts every text and builds every document. *)
Definition permissive : reportlab :=
  {| accepts := fun _ _ => true; builds := fun _ _ => true |}.

(** A scanned file, and a job description long enough for the handler. *)
Definition scanned_file : pdf_file :=
  Opens [Extracts None; PageRaises (lit "no text layer");
         Extracts (Some (lit "  "))].
Definition long_job : str :=
  lit "Python developer with five years of experience in data pipelines".

(** The loops of the writer only append, and append no section header. *)
Definition appended (elements elements' : list flowable) : Prop :=
  exists extra, elements' = elements ++ extra /\ headers extra = [].


(* ===================================================================== *)
(** * Properties *)
(* ===================================================================== *)

(** ** Lengths of the fallback outputs *)

Lemma firstn_nonempty_bounds {A} (n : nat) (l : list A) :
  l <> [] -> (1 <= n)%nat -> (1 <= length (firstn n l) <= n)%nat.
Proof.
  intros Hl Hn. rewrite length_firstn.
  destruct l as [|x l]; [congruence|]. simpl. lia.
Qed.

Lemma extract_experience_eq (resume_text : str) :
  _extract_experience resume_text =
  firstn 3 (match scanned_experience resume_text with
            | [] => [template_experience]
            | found => found
            end).
Proof. unfold _extract_experience. destruct (scanned_experience _); reflexivity. Qed.

Lemma extract_education_eq (resume_text : str) :
  _extract_education resume_text =
  firstn 2 (match scanned_education resume_text with
            | [] => [template_education]
            | found => found
            end).
Proof. unfold _extract_education. destruct (scanned_education _); reflexivity. Qed.

Lemma extract_experience_length (resume_text : str) :
  (1 <= length (_extract_experience resume_text) <= 3)%nat.
Proof.
  rewrite extract_experience_eq.
  apply firstn_nonempty_bounds; [|lia].
  destruct (scanned_experience resume_text); discriminate.
Qed.

Lemma extract_education_length (resume_text : str) :
  (1 <= length (_extract_education resume_text) <= 2)%nat.
Proof.
  rewrite extract_education_eq.
  apply firstn_nonempty_bounds; [|lia].
  destruct (scanned_education resume_text); discriminate.
Qed.

Lemma skills_fallback_length (resume_text : str) :
  (1 <= length (_extract_skills_fallback resume_text) <= 8)%nat.
Proof.
  unfold _extract_skills_fallback.
  destruct (found_skills resume_text) as [|s l] eqn:E.
  - vm_compute. lia.
  - apply firstn_nonempty_bounds; [discriminate | lia].
Qed.

(** A catalog term is reported when its upper-case form occurs in the
    upper-cased resume, whatever the case in the resume. *)
Lemma found_skills_spec (resume_text skill : str) :
  In skill (found_skills resume_text) <->
  In skill common_skills /\ contains (upper skill) (upper resume_text) = true.
Proof. unfold found_skills. cbv zeta. rewrite filter_In. reflexivity. Qed.

(** ** Score coercion *)

Lemma clamp_bounds (n : Z) : (0 <= Z.max 0 (Z.min 100 n) <= 100)%Z.
Proof. lia. Qed.

(** What [_extract_score] does, case by case on the float its argument
    converts to. *)
Lemma extract_score_cases (score : pyval) :
  _extract_score score =
  match float_of_str (py_str score) with
  | Raise _ => Ok 0%Z
  | Ok x =>
      match int_of_float x with
      | Ok n => Ok (Z.max 0 (Z.min 100 n))
      | Raise OverflowError => Raise OverflowError
      | Raise _ => Ok 0%Z
      end
  end.
Proof.
  unfold _extract_score, float_of_str.
  destruct (drop_underscores _ _) as [t|]; [|reflexivity].
  destruct (parse_float_body t) as [x|]; [|reflexivity].
  destruct x; reflexivity.
Qed.

Lemma extract_score_range (score : pyval) (n : Z) :
  _extract_score score = Ok n -> (0 <= n <= 100)%Z.
Proof.
  rewrite extract_score_cases.
  destruct (float_of_str _) as [x|e].
  - destruct (int_of_float x) as [m|e'].
    + intros [= <-]. apply clamp_bounds.
    + destruct e'; intros [= <-]; lia.
  - intros [= <-]. lia.
Qed.

Lemma extract_score_raises_only_overflow (score : pyval) (e : exn) :
  _extract_score score = Raise e -> e = OverflowError.
Proof.
  rewrite extract_score_cases.
  destruct (float_of_str _) as [x|e0]; [|discriminate].
  destruct (int_of_float x) as [m|e']; [discriminate|].
  destruct e'; intros [= <-]; reflexivity.
Qed.

(** C5. The four examples of the claim hold, and conversion failures give
    0; but a text that converts to an infinite float ("inf", "1e999")
    makes [_extract_score] raise OverflowError, which its handler for
    ValueError and TypeError does not catch. *)
Theorem extract_score_overflow :
  _extract_score (PStr (lit "inf")) = Raise OverflowError
  /\ _extract_score (PStr (lit "1e999")) = Raise OverflowError
  /\ _extract_score (PStr (lit "150")) = Ok 100%Z
  /\ _extract_score (PStr (lit "-5")) = Ok 0%Z
  /\ _extract_score (PStr (lit "abc")) = Ok 0%Z
  /\ _extract_score (PStr (lit "73.9")) = Ok 73%Z.
Proof. repeat split; vm_compute; reflexivity. Qed.

(** ** The result builder *)

Lemma extract_score_default : _extract_score (PInt 0) = Ok 0%Z.
Proof. vm_compute. reflexivity. Qed.

(** The builder on a mapping: it raises exactly when the score coercion
    does, and otherwise assembles the record from the coerced fields. *)
Lemma build_result_mapping (d : list (str * pyval)) (pi : PersonalInfo)
    (resume_text job_desc : str) :
  _build_result (PDict d) pi resume_text job_desc =
  let* score := _extract_score (dict_get d (lit "match_score") (PInt 0)) in
  let summary0 := strip (py_str (dict_get d (lit "summary") (PStr []))) in
  let cover0 := strip (py_str (dict_get d (lit "cover_letter") (PStr []))) in
  Ok {| personal_info := pi;
        summary := if nonempty summary0 then summary0
                   else _generate_fallback_summary resume_text job_desc;
        skills := if (length (coerced_skills d) <? 3)%nat
                  then _extract_skills_fallback resume_text
                  else coerced_skills d;
        missing_keywords :=
          _extract_list (dict_get d (lit "missing_keywords") (PList []));
        match_score := score;
        experience := _extract_experience resume_text;
        education := _extract_education resume_text;
        cover_letter := if nonempty cover0 then cover0
                        else _generate_fallback_cover_letter (name pi) job_desc |}.
Proof.
  unfold _build_result, coerced_skills.
  destruct d as [|kv d].
  - cbn [truthy dict_get]. rewrite extract_score_default. reflexivity.
  - cbn [truthy].
    set (sk := _extract_list (dict_get (kv :: d) (lit "skills") (PList []))).
    destruct (_extract_score _) as [n|e]; [|reflexivity].
    cbn [bind].
    replace (negb (nonempty sk) || (length sk <? 3)%nat)%bool
      with (length sk <? 3)%nat; [reflexivity|].
    destruct sk; reflexivity.
Qed.

Lemma build_result_raises_only_overflow (d : list (str * pyval))
    (pi : PersonalInfo) (resume_text job_desc : str) (e : exn) :
  _build_result (PDict d) pi resume_text job_desc = Raise e -> e = OverflowError.
Proof.
  rewrite build_result_mapping.
  destruct (_extract_score _) eqn:E; [discriminate|].
  intros [= <-]. eapply extract_score_raises_only_overflow, E.
Qed.

(** Whatever [parsed] is, a result that is returned carries the experience
    and education of the fallback extractors. *)
Lemma build_result_sections (parsed : pyval) (pi : PersonalInfo)
    (resume_text job_desc : str) (r : AnalysisResult) :
  _build_result parsed pi resume_text job_desc = Ok r ->
  personal_info r = pi
  /\ experience r = _extract_experience resume_text
  /\ education r = _extract_education resume_text.
Proof.
  unfold _build_result.
  destruct (if truthy parsed then _ else _) as [f|e]; [|discriminate].
  destruct f as [[[[sk mk] sc] su] cl]. cbn [bind].
  intros [= <-]. repeat split.
Qed.

(** When the builder returns on a mapping, the record is well formed. *)
Lemma build_result_well_formed (d : list (str * pyval)) (pi : PersonalInfo)
    (resume_text job_desc : str) (r : AnalysisResult) :
  _build_result (PDict d) pi resume_text job_desc = Ok r ->
  (0 <= match_score r <= 100)%Z
  /\ (1 <= length (experience r) <= 3)%nat
  /\ (1 <= length (education r) <= 2)%nat.
Proof.
  rewrite build_result_mapping.
  destruct (_extract_score _) as [n|e] eqn:E; [|discriminate].
  cbn [bind]. intros [= <-]. cbn.
  split; [eapply extract_score_range, E|].
  split; [apply extract_experience_length | apply extract_education_length].
Qed.

(** C1. On the mapping [{"match_score": inf}], which [json.loads] returns
    for the model output [{"match_score": 1e999}], the result builder
    raises OverflowError instead of returning an AnalysisResult. *)
Theorem build_result_overflow (pi : PersonalInfo) (resume_text job_desc : str) :
  _extract_json_from_response (bq "{`match_score`: 1e999}")
  = Ok (PDict [(lit "match_score", PFloat (S754_infinity false))])
  /\ _build_result (PDict [(lit "match_score", PFloat (S754_infinity false))])
       pi resume_text job_desc
     = Raise OverflowError.
Proof. split; [vm_compute; reflexivity | reflexivity]. Qed.

(** ** The response normaliser *)

Lemma loads_raises_decode_error (s : str) (e : exn) :
  loads s = Raise e -> e = JSONDecodeError.
Proof.
  unfold loads. destruct (scan_once _ _) as [[v r]|]; [|congruence].
  destruct (skip_ws r); congruence.
Qed.

Lemma try_loads (s : str) (next : result pyval) :
  try_except (loads s) is_JSONDecodeError (fun _ => next) =
  match loads s with Ok v => Ok v | Raise _ => next end.
Proof.
  destruct (loads s) as [v|e] eqn:E; [reflexivity|].
  apply loads_raises_decode_error in E. subst e. reflexivity.
Qed.

(** In the model the normaliser raises nothing: every strategy fails with
    JSONDecodeError only, which is caught. *)
Lemma normalizer_returns (text : str) :
  exists v, _extract_json_from_response text = Ok v.
Proof.
  unfold _extract_json_from_response.
  destruct text as [|c text]; [eexists; reflexivity|].
  set (t := strip (c :: text)).
  unfold strategy_direct, strategy_boundaries, strategy_fix.
  rewrite try_loads.
  destruct (loads t) as [v|?]; [eexists; reflexivity|].
  assert (K2 : forall g a b, exists v,
             (if g : bool
              then try_except (loads a) is_JSONDecodeError
                     (fun _ => if g
                               then try_except (loads b) is_JSONDecodeError
                                      (fun _ => Ok (PDict []))
                               else Ok (PDict []))
              else if g
                   then try_except (loads b) is_JSONDecodeError
                          (fun _ => Ok (PDict []))
                   else Ok (PDict [])) = Ok v).
  { intros [|] a b; [|eexists; reflexivity].
    rewrite !try_loads.
    destruct (loads a); [eexists; reflexivity|].
    destruct (loads b); eexists; reflexivity. }
  destruct (contains fence t); [|apply K2].
  unfold strategy_code_block, try_except.
  destruct (nth_error _ 1) as [j|]; [|apply K2].
  destruct (loads _) as [v|e'] eqn:E; [eexists; reflexivity|].
  apply loads_raises_decode_error in E. subst e'. apply K2.
Qed.



(** First strategy: a text that parses as a whole is returned as parsed. *)
Lemma normalizer_direct (text : str) (v : pyval) :
  text <> [] -> loads (strip text) = Ok v ->
  _extract_json_from_response text = Ok v.
Proof.
  intros Hne H. unfold _extract_json_from_response, strategy_direct.
  destruct text; [congruence|]. rewrite H. reflexivity.
Qed.

(** C2. On the model output [[1, 2]] the normaliser returns the list
    [[1, 2]], not a mapping (and the result builder then raises
    AttributeError on it): whatever JSON value the text spells is returned
    as it is. *)
Theorem normalizer_returns_non_mapping :
  _extract_json_from_response (lit "[1, 2]") = Ok (PList [PInt 1; PInt 2])
  /\ is_dict (PList [PInt 1; PInt 2]) = false
  /\ _build_result (PList [PInt 1; PInt 2]) nobody [] [] = Raise AttributeError.
Proof. repeat split; vm_compute; reflexivity. Qed.

(** An earlier strategy that succeeds hides a later shape: the fenced
    block [1] is returned, not the object after it. *)
Lemma normalizer_earlier_strategy_wins :
  _extract_json_from_response fenced_then_object = Ok (PInt 1)
  /\ attempts fenced_then_object
     = [Raise JSONDecodeError; Ok (PInt 1);
        Ok (PDict [(lit "a", PInt 2)]); Ok (PDict [(lit "a", PInt 2)])].
Proof. split; vm_compute; reflexivity. Qed.

(** ** List coercion *)

Lemma map_filter_both {A B} (f : A -> B) (p : A -> bool) (q : B -> bool)
    (l : list A) :
  map f (List.filter (fun x => p x && q (f x))%bool l)
  = List.filter q (map f (List.filter p l)).
Proof.
  induction l as [|x l IH]; [reflexivity|]. simpl.
  destruct (p x); simpl; [|exact IH].
  destruct (q (f x)); simpl; rewrite IH; reflexivity.
Qed.

Lemma map_filter_after {A B} (f : A -> B) (q : B -> bool) (l : list A) :
  map f (List.filter (fun x => q (f x)) l) = List.filter q (map f l).
Proof.
  induction l as [|x l IH]; [reflexivity|]. simpl.
  destruct (q (f x)); simpl; rewrite IH; reflexivity.
Qed.

(** C6 as stated fails: the item 0 has the non-empty text "0", and is
    dropped. *)
Lemma list_coercion_drops_falsy :
  _extract_list (PList [PInt 0]) = []
  /\ list_coercion_as_claimed (PList [PInt 0]) = [lit "0"]
  /\ _extract_list (PList [PInt 0]) <> list_coercion_as_claimed (PList [PInt 0]).
Proof. repeat split; vm_compute; try reflexivity; discriminate. Qed.

(** C6, amended. A sequence maps to its truthy items converted to trimmed
    text, the empty texts dropped; a text is split on commas, each piece
    trimmed, the empty ones dropped; anything else gives the empty
    sequence; with the three examples of the claim. *)
Theorem extract_list_truthy_items :
  (forall data : pyval,
      _extract_list data =
      match data with
      | PList items =>
          List.filter nonempty
            (map (fun item => strip (py_str item)) (List.filter truthy items))
      | PStr s => List.filter nonempty (map strip (split (lit ",") s))
      | _ => []
      end)
  /\ _extract_list (PList [PStr (lit "a"); PStr []; PStr (lit "b ")])
     = [lit "a"; lit "b"]
  /\ _extract_list (PStr (lit "a, b ,c")) = [lit "a"; lit "b"; lit "c"]
  /\ _extract_list (PInt 42) = [].
Proof.
  split; [|repeat split; vm_compute; reflexivity].
  intros data. destruct data; try reflexivity; unfold _extract_list.
  - apply map_filter_after.
  - apply (map_filter_both (fun item => strip (py_str item)) truthy nonempty).
Qed.

(** On a sequence of texts the claim holds as stated. *)
Lemma extract_list_of_texts (items : list pyval) :
  Forall (fun v => is_str v = true) items ->
  _extract_list (PList items) = list_coercion_as_claimed (PList items).
Proof.
  intros H. unfold _extract_list, list_coercion_as_claimed.
  rewrite <- map_filter_after.
  f_equal. induction H as [|v l Hv _ IH]; [reflexivity|]. simpl.
  rewrite IH. destruct v; try discriminate. simpl.
  destruct s as [|c s]; [reflexivity|]. reflexivity.
Qed.

(** ** Skills *)

(** C3 as stated fails: for an empty mapping and a resume that names one
    catalog term, the skills field has one entry. *)
Lemma skills_fallback_below_three :
  _build_result (PDict []) nobody python_only_resume [] = Ok python_only_result
  /\ skills python_only_result = [lit "Python"]
  /\ ~ (3 <= length (skills python_only_result))%nat.
Proof.
  split; [vm_compute; reflexivity|].
  split; [reflexivity|]. simpl. lia.
Qed.

(** C3, amended. When the builder returns on a mapping, the skills field is
    the coerced model list if that has at least 3 entries, and otherwise
    the skills fallback alone; the fallback is the 3 placeholders when no
    catalog term occurs in the resume, and else the first 8 terms found;
    so the field has at least 1 entry. *)
Theorem skills_fallback_policy (d : list (str * pyval)) (pi : PersonalInfo)
    (resume_text job_desc : str) (r : AnalysisResult) :
  _build_result (PDict d) pi resume_text job_desc = Ok r ->
  ((3 <= length (coerced_skills d))%nat -> skills r = coerced_skills d)
  /\ ((length (coerced_skills d) < 3)%nat ->
      skills r = _extract_skills_fallback resume_text)
  /\ (forall skill,
        In skill (found_skills resume_text) <->
        In skill common_skills
        /\ contains (upper skill) (upper resume_text) = true)
  /\ (found_skills resume_text = [] ->
      _extract_skills_fallback resume_text = placeholder_skills)
  /\ (found_skills resume_text <> [] ->
      _extract_skills_fallback resume_text = firstn 8 (found_skills resume_text))
  /\ length placeholder_skills = 3%nat
  /\ (1 <= length (_extract_skills_fallback resume_text) <= 8)%nat
  /\ (1 <= length (skills r))%nat.
Proof.
  rewrite build_result_mapping.
  destruct (_extract_score _) as [n|e]; [|discriminate].
  cbn [bind]. intros [= <-]. cbn [skills].
  pose proof (skills_fallback_length resume_text) as Hf.
  assert (Hnone : found_skills resume_text = [] ->
                  _extract_skills_fallback resume_text = placeholder_skills).
  { unfold _extract_skills_fallback. intros ->. reflexivity. }
  assert (Hsome : found_skills resume_text <> [] ->
                  _extract_skills_fallback resume_text
                  = firstn 8 (found_skills resume_text)).
  { unfold _extract_skills_fallback.
    destruct (found_skills resume_text); [congruence | reflexivity]. }
  destruct (Nat.ltb_spec (length (coerced_skills d)) 3) as [Hlt|Hge];
    (split; [|split; [|split; [intro; apply found_skills_spec|]]]);
    repeat split; try assumption; try lia; try reflexivity.
Qed.

Lemma skills_fallback_policy_witness :
  _build_result (PDict []) nobody python_only_resume [] = Ok python_only_result
  /\ (1 <= length (skills python_only_result))%nat.
Proof.
  assert (H : _build_result (PDict []) nobody python_only_resume []
              = Ok python_only_result) by (vm_compute; reflexivity).
  split; [exact H|].
  apply (skills_fallback_policy [] nobody python_only_resume []
           python_only_result H).
Defined.

(** ** Experience and education *)

Lemma dict_get_set_other (d : list (str * pyval)) (k k' : str)
    (v default : pyval) :
  k <> k' -> dict_get (dict_set d k v) k' default = dict_get d k' default.
Proof.
  intros Hne. unfold str_eqb.
  induction d as [|[k0 v0] d IH]; simpl; unfold str_eqb.
  - rewrite bool_decide_eq_false_2; [reflexivity | exact Hne].
  - destruct (bool_decide (k0 = k)) eqn:E.
    + apply bool_decide_eq_true_1 in E. subst k0. simpl. unfold str_eqb.
      rewrite bool_decide_eq_false_2; [reflexivity | exact Hne].
    + simpl. unfold str_eqb. rewrite IH. reflexivity.
Qed.

(** The builder reads the five keys of [model_keys] and no other: setting
    any other key of the mapping changes nothing in what it returns. *)
Lemma build_result_ignores_other_keys (d : list (str * pyval)) (k : str)
    (v : pyval) (pi : PersonalInfo) (resume_text job_desc : str) :
  ~ In k model_keys ->
  _build_result (PDict (dict_set d k v)) pi resume_text job_desc
  = _build_result (PDict d) pi resume_text job_desc.
Proof.
  intros Hk. rewrite !build_result_mapping. unfold coerced_skills.
  rewrite !dict_get_set_other; [reflexivity| | | | |];
    intros ->; apply Hk; vm_compute; tauto.
Qed.

(** C4. Whatever was parsed, a built result carries as experience and
    education the outputs of the fallback extractors on the resume; and an
    [experience] or [education] value supplied in the mapping changes
    nothing in the result. *)
Theorem experience_education_recomputed (parsed : pyval) (pi : PersonalInfo)
    (resume_text job_desc : str) (r : AnalysisResult) :
  _build_result parsed pi resume_text job_desc = Ok r ->
  experience r = _extract_experience resume_text
  /\ education r = _extract_education resume_text
  /\ (forall (d : list (str * pyval)) (v : pyval),
        _build_result (PDict (dict_set d (lit "experience") v))
          pi resume_text job_desc
        = _build_result (PDict d) pi resume_text job_desc
        /\ _build_result (PDict (dict_set d (lit "education") v))
             pi resume_text job_desc
           = _build_result (PDict d) pi resume_text job_desc).
Proof.
  intros H. apply build_result_sections in H. destruct H as (_ & He & Hd).
  repeat split; try assumption;
    apply build_result_ignores_other_keys; vm_compute;
    intros Hk; repeat destruct Hk as [Hk|Hk]; try discriminate Hk; exact Hk.
Qed.

Lemma experience_education_recomputed_witness :
  _build_result (PDict []) nobody python_only_resume [] = Ok python_only_result
  /\ experience python_only_result = _extract_experience python_only_resume
  /\ education python_only_result = _extract_education python_only_resume.
Proof.
  assert (H : _build_result (PDict []) nobody python_only_resume []
              = Ok python_only_result) by (vm_compute; reflexivity).
  split; [exact H|].
  destruct (experience_education_recomputed _ _ _ _ _ H) as (He & Hd & _).
  split; assumption.
Defined.

(** C9. The experience extractor returns 1 to 3 entries and the education
    extractor 1 to 2: the entries scanned, or the one template entry when
    the scan found none, cut to the first 3 (2); so both fields of a built
    result are non-empty. *)
Theorem fallback_sections_bounds (resume_text : str) :
  (1 <= length (_extract_experience resume_text) <= 3)%nat
  /\ (1 <= length (_extract_education resume_text) <= 2)%nat
  /\ _extract_experience resume_text
     = firstn 3 (match scanned_experience resume_text with
                 | [] => [template_experience]
                 | found => found
                 end)
  /\ _extract_education resume_text
     = firstn 2 (match scanned_education resume_text with
                 | [] => [template_education]
                 | found => found
                 end)
  /\ (forall parsed pi job_desc r,
        _build_result parsed pi resume_text job_desc = Ok r ->
        experience r <> [] /\ education r <> []).
Proof.
  pose proof (extract_experience_length resume_text) as He.
  pose proof (extract_education_length resume_text) as Hd.
  repeat split; try lia;
    try apply extract_experience_eq; try apply extract_education_eq.
  - apply build_result_sections in H. destruct H as (_ & -> & _).
    destruct (_extract_experience resume_text); [simpl in He; lia | discriminate].
  - apply build_result_sections in H. destruct H as (_ & _ & ->).
    destruct (_extract_education resume_text); [simpl in Hd; lia | discriminate].
Qed.

Lemma fallback_sections_bounds_witness :
  experience python_only_result <> [] /\ education python_only_result <> [].
Proof.
  apply (proj2 (proj2 (proj2 (proj2 (fallback_sections_bounds python_only_resume))))
           (PDict []) nobody [] python_only_result).
  vm_compute. reflexivity.
Defined.

(** ** The orchestrator and its cache *)

Ltac analyze_steps :=
  unfold analyze;
  repeat match goal with
    | |- context [match _get_cache_key ?r ?j with _ => _ end] =>
        destruct (_get_cache_key r j) eqn:?
    | |- context [match cache ?s !! ?k with _ => _ end] =>
        destruct (cache s !! k) eqn:?
    | |- context [if negb (_test_ollama_connection ?s) then _ else _] =>
        destruct (_test_ollama_connection s) eqn:?; cbn [negb]
    | |- context [match _call_ollama ?a ?b ?c ?d with _ => _ end] =>
        destruct (_call_ollama a b c d) eqn:?
    | |- context [match _extract_json_from_response ?t with _ => _ end] =>
        destruct (_extract_json_from_response t) eqn:?
    | |- context [match _build_result ?a ?b ?c ?d with _ => _ end] =>
        destruct (_build_result a b c d) eqn:?
    end.

(** Entries of the cache are never removed nor replaced by a call. *)
Lemma analyze_keeps_entries (svc : service) (self : engine)
    (resume_text job_desc : str) (k : str) (r : AnalysisResult) :
  cache self !! k = Some r ->
  cache (snd (fst (analyze svc self resume_text job_desc))) !! k = Some r.
Proof.
  intros Hk. analyze_steps; cbn [fst snd]; try exact Hk.
  cbn [with_cache cache]. rewrite lookup_insert_ne; [exact Hk|].
  intros <-. congruence.
Qed.

(** C7. After a call that returned [r], a second call with the same two
    texts returns [r] again, leaves the engine as it is and sends nothing to
    the model service (no probe, no generation request), whatever the
    service would have answered. *)
Theorem warm_cache_idempotent (svc1 svc2 : service) (self self1 : engine)
    (resume_text job_desc : str) (r : AnalysisResult) (sent1 : list event) :
  analyze svc1 self resume_text job_desc = (Ok r, self1, sent1) ->
  analyze svc2 self1 resume_text job_desc = (Ok r, self1, []).
Proof.
  unfold analyze.
  destruct (_get_cache_key resume_text job_desc) as [key|e]; [|discriminate].
  destruct (cache self !! key) as [cached|] eqn:Hc.
  - intros [= <- <- <-]. rewrite Hc. reflexivity.
  - destruct (_test_ollama_connection svc1); cbn [negb]; [|discriminate].
    destruct (_call_ollama _ _ _ _); [|discriminate].
    destruct (_extract_json_from_response _); [|discriminate].
    destruct (_build_result _ _ _ _) as [r'|]; [|discriminate].
    intros [= <- <- <-]. cbn [with_cache cache].
    rewrite lookup_insert_eq. reflexivity.
Qed.

Lemma warm_cache_idempotent_witness :
  exists r self1 sent1,
    analyze demo_service demo_engine demo_resume demo_job = (Ok r, self1, sent1)
    /\ analyze down_service self1 demo_resume demo_job = (Ok r, self1, []).
Proof.
  destruct (analyze demo_service demo_engine demo_resume demo_job)
    as [[[r|e] self1] sent1] eqn:E.
  - exists r, self1, sent1. split; [reflexivity|].
    exact (warm_cache_idempotent demo_service down_service demo_engine self1
             demo_resume demo_job r sent1 E).
  - exfalso. vm_compute in E. discriminate E.
Defined.

(** The same after any number of other calls in between. *)
Lemma warm_cache_after_calls (calls : list (service * str * str))
    (svc : service) (self : engine) (resume_text job_desc key : str)
    (r : AnalysisResult) :
  _get_cache_key resume_text job_desc = Ok key ->
  cache self !! key = Some r ->
  let self' :=
    fold_left (fun e c => snd (fst (analyze (fst (fst c)) e (snd (fst c)) (snd c))))
              calls self in
  analyze svc self' resume_text job_desc = (Ok r, self', []).
Proof.
  intros Hkey. revert self.
  induction calls as [|c calls IH]; intros self Hc; cbn [fold_left].
  - unfold analyze. rewrite Hkey, Hc. reflexivity.
  - apply IH. apply analyze_keeps_entries. exact Hc.
Qed.

(** A transport error of the generation request surfaces as the
    connection error of [_call_ollama], at the request or in mid-stream. *)
Lemma call_ollama_transport_error (svc : service) (self : engine)
    (prompt msg : str) (max_tokens : Z) :
  generate svc (model_name self) prompt max_tokens = PostRaises msg ->
  _call_ollama svc self prompt max_tokens = Raise (connection_error msg).
Proof. unfold _call_ollama. intros ->. reflexivity. Qed.

Lemma call_ollama_broken_stream (svc : service) (self : engine)
    (prompt msg : str) (max_tokens : Z) (lines : list str) (last : stream_end) :
  generate svc (model_name self) prompt max_tokens = Streams lines last ->
  read_lines lines last [] = Raise (RequestException msg) ->
  _call_ollama svc self prompt max_tokens = Raise (connection_error msg).
Proof. unfold _call_ollama. intros -> ->. reflexivity. Qed.

(** C10. A call that raises leaves the engine, and so its cache, as it was:
    on a cache miss a failed probe raises the connection message, and
    whatever the generation call raises (a transport error surfaces as the
    connection error of [_call_ollama]) is raised by [analyze]; the only
    change a call makes to the cache is to bind the request's key to the
    complete result it returns. *)
Theorem cache_error_atomicity (svc : service) (self self' : engine)
    (resume_text job_desc : str) (res : result AnalysisResult)
    (sent : list event) :
  analyze svc self resume_text job_desc = (res, self', sent) ->
  (forall e, res = Raise e -> self' = self)
  /\ (forall key,
        _get_cache_key resume_text job_desc = Ok key ->
        cache self !! key = None ->
        (_test_ollama_connection svc = false ->
         res = Raise (cannot_connect self) /\ self' = self)
        /\ (_test_ollama_connection svc = true ->
            forall e,
              _call_ollama svc self
                (_build_analysis_prompt resume_text job_desc) 2000 = Raise e ->
              res = Raise e /\ self' = self)
        /\ (_test_ollama_connection svc = true ->
            forall msg,
              generate svc (model_name self)
                (_build_analysis_prompt resume_text job_desc) 2000
              = PostRaises msg ->
              res = Raise (connection_error msg) /\ self' = self))
  /\ (self' = self
      \/ exists key r,
           _get_cache_key resume_text job_desc = Ok key
           /\ cache self !! key = None
           /\ res = Ok r
           /\ self' = with_cache self (<[key := r]> (cache self))).
Proof.
  intros H. split; [|split].
  - intros e ->. revert H. analyze_steps; intros H; congruence.
  - intros key Hkey Hmiss. unfold analyze in H. rewrite Hkey, Hmiss in H.
    split; [|split].
    + intros Hp. rewrite Hp in H. cbn [negb] in H.
      injection H as <- <- <-. split; reflexivity.
    + intros Hp e He. rewrite Hp, He in H. cbn [negb] in H.
      injection H as <- <- <-. split; reflexivity.
    + intros Hp msg Hg.
      rewrite Hp, (call_ollama_transport_error _ _ _ _ _ Hg) in H.
      cbn [negb] in H. injection H as <- <- <-. split; reflexivity.
  - revert H. analyze_steps; intros [= <- <- <-];
      try (left; reflexivity).
    right. eexists _, _. repeat split; eassumption.
Qed.

Lemma cache_error_atomicity_witness :
  analyze down_service demo_engine demo_resume demo_job
  = (Raise (cannot_connect demo_engine), demo_engine, [Probe])
  /\ forall e, Raise (A := AnalysisResult) (cannot_connect demo_engine) = Raise e ->
               demo_engine = demo_engine.
Proof.
  assert (H : analyze down_service demo_engine demo_resume demo_job
              = (Raise (cannot_connect demo_engine), demo_engine, [Probe]))
    by (vm_compute; reflexivity).
  split; [exact H|].
  exact (proj1 (cache_error_atomicity _ _ _ _ _ _ _ H)).
Defined.

(** ** The cache key *)

(** UTF-8 is a prefix code: the bytes of a character determine it, whatever
    follows. *)
Lemma encode_char_prefix_free (c1 c2 : char) (b1 b2 t1 t2 : list Z) :
  encode_char c1 = Ok b1 -> encode_char c2 = Ok b2 ->
  b1 ++ t1 = b2 ++ t2 -> c1 = c2 /\ t1 = t2.
Proof.
  unfold encode_char.
  pose proof (N2Z.is_nonneg c1) as P1. pose proof (N2Z.is_nonneg c2) as P2.
  intros H1 H2 E.
  assert (Z.of_N c1 = Z.of_N c2 /\ t1 = t2) as [Hz Ht];
    [|split; [apply N2Z.inj, Hz | exact Ht]].
  revert H1 H2.
  set (z1 := Z.of_N c1) in *. set (z2 := Z.of_N c2) in *.
  destruct (Z.ltb_spec z1 128); [|destruct (Z.ltb_spec z1 2048);
    [|destruct (Z.ltb_spec z1 65536);
      [destruct (between 55296 57343 c1); [discriminate|]|]]];
  (destruct (Z.ltb_spec z2 128); [|destruct (Z.ltb_spec z2 2048);
    [|destruct (Z.ltb_spec z2 65536);
      [destruct (between 55296 57343 c2); [discriminate|]|]]]);
  intros [= <-] [= <-]; cbn [app] in E; injection E as; subst;
  split; try reflexivity; try assumption; Z.div_mod_to_equations; lia.
Qed.

Lemma encode_char_nonempty (c : char) (b : list Z) :
  encode_char c = Ok b -> b <> [].
Proof.
  unfold encode_char.
  repeat match goal with
         | |- context [if ?x then _ else _] => destruct x
         end; intros [= <-]; discriminate.
Qed.

Lemma encode_cons (c : char) (s : str) (b : list Z) :
  encode (c :: s) = Ok b ->
  exists bc bs, encode_char c = Ok bc /\ encode s = Ok bs /\ b = bc ++ bs.
Proof.
  cbn [encode]. destruct (encode_char c) as [bc|]; [|discriminate].
  cbn [bind]. destruct (encode s) as [bs|]; [|discriminate].
  cbn [bind]. intros [= <-]. eauto.
Qed.

(** Two texts with the same UTF-8 bytes are the same text. *)
Lemma encode_inj (s1 s2 : str) (b : list Z) :
  encode s1 = Ok b -> encode s2 = Ok b -> s1 = s2.
Proof.
  revert s2 b. induction s1 as [|c1 s1 IH]; intros [|c2 s2] b H1 H2.
  - reflexivity.
  - cbn in H1. injection H1 as <-.
    apply encode_cons in H2. destruct H2 as (bc & bs & Hc & _ & E).
    apply encode_char_nonempty in Hc. destruct bc; [congruence | discriminate].
  - cbn in H2. injection H2 as <-.
    apply encode_cons in H1. destruct H1 as (bc & bs & Hc & _ & E).
    apply encode_char_nonempty in Hc. destruct bc; [congruence | discriminate].
  - apply encode_cons in H1. destruct H1 as (bc1 & bs1 & Hc1 & Hs1 & ->).
    apply encode_cons in H2. destruct H2 as (bc2 & bs2 & Hc2 & Hs2 & E).
    destruct (encode_char_prefix_free _ _ _ _ _ _ Hc1 Hc2 E) as [-> ->].
    f_equal. eapply IH; eassumption.
Qed.

(** Where the bar stands in the joined text is known when the two left
    parts have one length, or hold no bar. *)
Lemma joined_absent_inj (x : char) (a a' b b' : str) :
  ~ In x a -> ~ In x a' -> a ++ x :: b = a' ++ x :: b' -> a = a' /\ b = b'.
Proof.
  revert a'. induction a as [|c a IH]; intros [|c' a'] Ha Ha' E; cbn in *.
  - injection E as ->. split; reflexivity.
  - injection E as <- _. tauto.
  - injection E as -> _. tauto.
  - injection E as -> E.
    specialize (IH a' ltac:(tauto) ltac:(tauto) E).
    destruct IH as [-> ->]. split; reflexivity.
Qed.

Lemma joined_same_length_inj (x : char) (a a' b b' : str) :
  length a = length a' -> a ++ x :: b = a' ++ x :: b' -> a = a' /\ b = b'.
Proof.
  intros Hl E. apply app_inj_1 in E; [|exact Hl].
  destruct E as [-> [= ->]]. split; reflexivity.
Qed.

Lemma combined_eq (resume_text job_desc : str) :
  combined resume_text job_desc
  = str_upto 1000 resume_text ++ bar :: str_upto 500 job_desc.
Proof. reflexivity. Qed.

(** C8 as stated fails in its last part: the requests ("a|b", "c") and
    ("a", "b|c") have different prefixes and yet the same joined text, so
    the same key, the digest being given one and the same input. *)
Lemma cache_key_separator_collision :
  (str_upto 1000 (lit "a|b"), str_upto 500 (lit "c"))
  <> (str_upto 1000 (lit "a"), str_upto 500 (lit "b|c"))
  /\ combined (lit "a|b") (lit "c") = combined (lit "a") (lit "b|c")
  /\ _get_cache_key (lit "a|b") (lit "c") = _get_cache_key (lit "a") (lit "b|c")
  /\ _get_cache_key (lit "a|b") (lit "c")
     = Ok (lit "2e077b3ec5932ac3cf914ebdf242b4ee").
Proof.
  split; [vm_compute; discriminate|].
  repeat split; vm_compute; reflexivity.
Qed.

(** C8, amended. The key is a function of the two prefixes: requests that
    agree on them get the same key. Two requests with one key either have
    the same joined text or make MD5 collide on two different byte
    strings; and the same joined text means the same prefixes as soon as
    the resume prefixes have one length (as when both resumes have 1000
    characters or more) or hold no bar. *)
Theorem cache_key_of_prefixes (r1 j1 r2 j2 : str) :
  (str_upto 1000 r1 = str_upto 1000 r2 ->
   str_upto 500 j1 = str_upto 500 j2 ->
   _get_cache_key r1 j1 = _get_cache_key r2 j2)
  /\ (forall key,
        _get_cache_key r1 j1 = Ok key -> _get_cache_key r2 j2 = Ok key ->
        combined r1 j1 = combined r2 j2
        \/ exists b1 b2,
             encode (combined r1 j1) = Ok b1 /\ encode (combined r2 j2) = Ok b2
             /\ b1 <> b2 /\ hexdigest b1 = hexdigest b2)
  /\ (combined r1 j1 = combined r2 j2 ->
      length (str_upto 1000 r1) = length (str_upto 1000 r2)
      \/ (~ In bar (str_upto 1000 r1) /\ ~ In bar (str_upto 1000 r2)) ->
      str_upto 1000 r1 = str_upto 1000 r2 /\ str_upto 500 j1 = str_upto 500 j2).
Proof.
  split; [|split].
  - intros Hr Hj. unfold _get_cache_key, combined. rewrite Hr, Hj. reflexivity.
  - intros key. unfold _get_cache_key.
    destruct (encode (combined r1 j1)) as [b1|] eqn:E1; [|discriminate].
    destruct (encode (combined r2 j2)) as [b2|] eqn:E2; [|discriminate].
    cbn [bind]. intros [= H1] [= H2].
    destruct (decide (combined r1 j1 = combined r2 j2)) as [Heq|Hne];
      [left; exact Heq|].
    right. exists b1, b2. repeat split; try congruence.
    intros ->. apply Hne. eapply encode_inj; eassumption.
  - rewrite !combined_eq. intros E [Hl|[H1 H2]].
    + eapply joined_same_length_inj; eassumption.
    + eapply joined_absent_inj; eassumption.
Qed.

Lemma cache_key_of_prefixes_witness :
  str_upto 1000 (long_resume (lit "X")) = str_upto 1000 (long_resume (lit "Y"))
  /\ long_resume (lit "X") <> long_resume (lit "Y")
  /\ _get_cache_key (long_resume (lit "X")) (lit "dev")
     = _get_cache_key (long_resume (lit "Y")) (lit "dev").
Proof.
  assert (H : str_upto 1000 (long_resume (lit "X"))
              = str_upto 1000 (long_resume (lit "Y")))
    by (vm_compute; reflexivity).
  split; [exact H|]. split.
  - intros E. apply (f_equal (skipn 1000)) in E. vm_compute in E. discriminate E.
  - exact (proj1 (cache_key_of_prefixes _ _ _ _) H eq_refl).
Defined.

(* ===================================================================== *)
(** * Further properties *)
(* ===================================================================== *)

(** ** Trimmed texts *)

Lemma lstrip_by_starts (p : char -> bool) (s : str) :
  match lstrip_by p s with c :: _ => p c = false | [] => True end.
Proof.
  induction s as [|c s IH]; simpl; [exact I|].
  destruct (p c) eqn:E; [exact IH | exact E].
Qed.

Lemma lstrip_by_fixed (p : char -> bool) (s : str) :
  match s with c :: _ => p c = false | [] => True end -> lstrip_by p s = s.
Proof. destruct s as [|c s]; simpl; [reflexivity|]. intros ->. reflexivity. Qed.

Lemma lstrip_by_split (p : char -> bool) (s : str) :
  exists pre, s = pre ++ lstrip_by p s /\ forallb p pre = true.
Proof.
  induction s as [|c s (pre & E & H)]; simpl.
  - exists []. split; reflexivity.
  - destruct (p c) eqn:Ec.
    + exists (c :: pre). simpl. rewrite Ec, H. split; [f_equal; exact E | reflexivity].
    + exists []. split; reflexivity.
Qed.

Lemma lstrip_by_all (p : char -> bool) (s : str) :
  forallb p s = true -> lstrip_by p s = [].
Proof.
  induction s as [|c s IH]; simpl; [reflexivity|].
  intros H. apply andb_prop in H as [-> H]. exact (IH H).
Qed.

Lemma lstrip_by_app_keep (p : char -> bool) (s t : str) :
  lstrip_by p s <> [] -> lstrip_by p (s ++ t) = lstrip_by p s ++ t.
Proof.
  induction s as [|c s IH]; simpl; [congruence|].
  destruct (p c); [exact IH | reflexivity].
Qed.

Lemma rstrip_by_ends (p : char -> bool) (s : str) :
  match rev (rstrip_by p s) with c :: _ => p c = false | [] => True end.
Proof. unfold rstrip_by. rewrite rev_involutive. apply lstrip_by_starts. Qed.

Lemma rstrip_by_head (p : char -> bool) (s : str) :
  match s with c :: _ => p c = false | [] => True end ->
  match rstrip_by p s with c :: _ => p c = false | [] => True end.
Proof.
  destruct s as [|c s]; [intros _; exact I|]. intros Hc.
  unfold rstrip_by.
  destruct (lstrip_by p (rev (c :: s))) as [|d l] eqn:E.
  - exact I.
  - assert (Hl : lstrip_by p (rev (c :: s)) = lstrip_by p (rev s) ++ [c]
                 \/ lstrip_by p (rev (c :: s)) = [c]).
    { simpl rev. destruct (lstrip_by p (rev s)) as [|x y] eqn:Ex.
      - right. destruct (lstrip_by_split p (rev s)) as (pre & Ep & Hp).
        rewrite Ex, app_nil_r in Ep. rewrite Ep.
        clear -Hp Hc. induction pre as [|a pre IH]; simpl.
        + rewrite Hc. reflexivity.
        + simpl in Hp. apply andb_prop in Hp as [-> Hp]. exact (IH Hp).
      - left. rewrite lstrip_by_app_keep; rewrite Ex; [reflexivity | congruence]. }
    destruct Hl as [Hl|Hl]; rewrite E in Hl; rewrite Hl.
    + rewrite rev_app_distr. simpl. exact Hc.
    + simpl. exact Hc.
Qed.

Lemma strip_trimmed (s : str) : trimmed (strip s).
Proof.
  unfold strip, trimmed. split.
  - apply (rstrip_by_head isspace). apply lstrip_by_starts.
  - apply (rstrip_by_ends isspace).
Qed.

Lemma trimmed_strip (s : str) : trimmed s -> strip s = s.
Proof.
  intros [H1 H2]. unfold strip. rewrite lstrip_by_fixed by exact H1.
  unfold rstrip_by. rewrite lstrip_by_fixed by exact H2. apply rev_involutive.
Qed.

Lemma strip_blank (s : str) : forallb isspace s = true -> strip s = [].
Proof. intros H. unfold strip. rewrite lstrip_by_all by exact H. reflexivity. Qed.

(** ** List and score coercion *)

Lemma nonempty_true {A} (l : list A) : nonempty l = true <-> l <> [].
Proof. destruct l; simpl; split; congruence. Qed.

Lemma extract_list_clean (data : pyval) : Forall clean_item (_extract_list data).
Proof.
  unfold _extract_list. destruct data; try exact (List.Forall_nil _);
    apply List.Forall_forall; intros x Hx; apply in_map_iff in Hx;
    destruct Hx as (y & <- & Hy); apply filter_In in Hy; destruct Hy as [_ Hy].
  - split; [apply nonempty_true, Hy | apply strip_trimmed].
  - apply andb_prop in Hy as [_ Hy].
    split; [apply nonempty_true, Hy | apply strip_trimmed].
Qed.

Lemma extract_list_of_clean (l : list str) :
  Forall clean_item l -> _extract_list (PList (map PStr l)) = l.
Proof.
  unfold _extract_list. induction 1 as [|s l [Hs Ht] _ IH]; [reflexivity|].
  destruct s as [|c s]; [congruence|].
  cbn [map List.filter py_str truthy]. rewrite (trimmed_strip _ Ht).
  cbn [nonempty andb map py_str]. rewrite (trimmed_strip _ Ht).
  f_equal. exact IH.
Qed.

(** X1. List coercion gives clean items only, and gives back a list of clean
    texts as it is: coercing its own output changes nothing. *)
Theorem extract_list_idempotent (data : pyval) :
  Forall clean_item (_extract_list data)
  /\ _extract_list (PList (map PStr (_extract_list data))) = _extract_list data.
Proof.
  split; [apply extract_list_clean | apply extract_list_of_clean, extract_list_clean].
Qed.

Lemma score_table :
  forallb (fun k =>
             match _extract_score (PInt (Z.of_nat k)),
                   _extract_score (PStr (int_str (Z.of_nat k))),
                   _extract_score (PStr (int_str (Z.of_nat k) ++ lit ".0")) with
             | Ok a, Ok b, Ok c =>
                 (Z.eqb a (Z.of_nat k) && Z.eqb b (Z.of_nat k) && Z.eqb c (Z.of_nat k))%bool
             | _, _, _ => false
             end) (seq 0 101) = true.
Proof. vm_compute. reflexivity. Qed.

(** X2. A score that is already valid is kept: an integer from 0 to 100,
    given as a number, as its decimal text or as that text followed by
    ".0", is returned unchanged. *)
Theorem extract_score_keeps_valid (n : Z) :
  (0 <= n <= 100)%Z ->
  _extract_score (PInt n) = Ok n
  /\ _extract_score (PStr (int_str n)) = Ok n
  /\ _extract_score (PStr (int_str n ++ lit ".0")) = Ok n.
Proof.
  intros Hn. pose proof score_table as T.
  rewrite forallb_forall in T. specialize (T (Z.to_nat n)).
  rewrite Z2Nat.id in T by lia.
  assert (Hin : In (Z.to_nat n) (seq 0 101)) by (apply in_seq; lia).
  specialize (T Hin).
  destruct (_extract_score (PInt n)) as [a|]; [|discriminate].
  destruct (_extract_score (PStr (int_str n))) as [b|]; [|discriminate].
  destruct (_extract_score (PStr (_ ++ _))) as [c|]; [|discriminate].
  apply andb_prop in T as [T Tc]. apply andb_prop in T as [Ta Tb].
  apply Z.eqb_eq in Ta, Tb, Tc. subst. repeat split.
Qed.

Lemma extract_score_keeps_valid_witness :
  _extract_score (PInt 75) = Ok 75%Z.
Proof. apply (extract_score_keeps_valid 75). lia. Defined.

Lemma lstrip_by_app_all (p : char -> bool) (pad s : str) :
  forallb p pad = true -> lstrip_by p (pad ++ s) = lstrip_by p s.
Proof.
  induction pad as [|c pad IH]; [reflexivity|].
  cbn [forallb app lstrip_by]. intros H. apply andb_prop in H as [-> H].
  exact (IH H).
Qed.

Lemma strip_padded (pad s : str) :
  forallb isspace pad = true -> strip (pad ++ s) = strip s.
Proof. intros H. unfold strip. rewrite lstrip_by_app_all by exact H. reflexivity. Qed.

Lemma split_aux_char (c : char) (w rest cur : str) :
  ~ In c w ->
  split_aux [c] 0 cur (w ++ c :: rest)
  = (rev cur ++ w) :: split_aux [c] 0 [] rest.
Proof.
  revert cur. induction w as [|x w IH]; intros cur Hw.
  - cbn [app split_aux startswith length Nat.sub]. rewrite N.eqb_refl. cbn [andb].
    rewrite app_nil_r. reflexivity.
  - cbn [app split_aux startswith].
    destruct (N.eqb c x) eqn:E.
    + apply N.eqb_eq in E. exfalso. apply Hw. left. symmetry. exact E.
    + cbn [andb]. rewrite IH by (intros H; apply Hw; right; exact H).
      cbn [rev]. rewrite <- app_assoc. reflexivity.
Qed.

Lemma split_aux_last (c : char) (w cur : str) :
  ~ In c w -> split_aux [c] 0 cur w = [rev cur ++ w].
Proof.
  revert cur. induction w as [|x w IH]; intros cur Hw.
  - cbn [split_aux]. rewrite app_nil_r. reflexivity.
  - cbn [split_aux startswith].
    destruct (N.eqb c x) eqn:E.
    + apply N.eqb_eq in E. exfalso. apply Hw. left. symmetry. exact E.
    + cbn [andb]. rewrite IH by (intros H; apply Hw; right; exact H).
      cbn [rev]. rewrite <- app_assoc. reflexivity.
Qed.

Lemma join_padded (sep pad x : str) (l : list str) :
  pad ++ join sep (x :: l) = join sep ((pad ++ x) :: l).
Proof. destruct l; cbn [join]; [reflexivity | apply app_assoc]. Qed.

Lemma split_joined (c : char) (pad : str) (l : list str) :
  ~ In c pad -> Forall (fun s => ~ In c s) l ->
  forall x, ~ In c x ->
    split [c] (join (c :: pad) (x :: l)) = x :: map (app pad) l.
Proof.
  intros Hp. unfold split. induction 1 as [|y l Hy _ IH]; intros x Hx.
  - cbn [join map]. apply (split_aux_last c x [] Hx).
  - change (join (c :: pad) (x :: y :: l))
      with (x ++ (c :: pad) ++ join (c :: pad) (y :: l)).
    cbn [app]. rewrite split_aux_char by exact Hx. cbn [rev app map].
    rewrite join_padded. rewrite IH; [reflexivity|].
    intros H. apply in_app_or in H as [H|H]; tauto.
Qed.

Lemma padded_items (pad : str) (l : list str) :
  forallb isspace pad = true -> Forall clean_item l ->
  map strip (List.filter (fun item => nonempty (strip item)) (map (app pad) l)) = l.
Proof.
  intros Hp. induction 1 as [|s l Hs _ IH]; [reflexivity|].
  cbn [map List.filter]. rewrite strip_padded by exact Hp.
  destruct Hs as [Hn Ht]. rewrite (trimmed_strip _ Ht).
  apply nonempty_true in Hn. rewrite Hn. cbn [map].
  rewrite strip_padded by exact Hp. rewrite (trimmed_strip _ Ht), IH. reflexivity.
Qed.

(** X3. A list written as one text, its items separated by a comma and any
    white space, is read back item by item, provided the items are not
    empty, have no white space at their ends and hold no comma. *)
Theorem extract_list_of_joined (pad : str) (l : list str) :
  forallb isspace pad = true ->
  Forall (fun s => clean_item s /\ ~ In comma s) l ->
  _extract_list (PStr (join (comma :: pad) l)) = l.
Proof.
  intros Hp Hl.
  assert (Hc : ~ In comma pad).
  { intros H. rewrite forallb_forall in Hp. apply Hp in H. discriminate H. }
  assert (H1 : Forall clean_item l)
    by (eapply Forall_impl; [exact Hl | intros s [H _]; exact H]).
  assert (H2 : Forall (fun s => ~ In comma s) l)
    by (eapply Forall_impl; [exact Hl | intros s [_ H]; exact H]).
  destruct l as [|x l]; [reflexivity|].
  apply Forall_cons in H1 as [Hx H1]. apply Forall_cons in H2 as [Hx2 H2].
  assert (S : split (lit ",") (join (comma :: pad) (x :: l))
              = x :: map (app pad) l)
    by exact (split_joined comma pad l Hc H2 x Hx2).
  unfold _extract_list. rewrite S.
  cbn [List.filter]. destruct Hx as [Hn Ht]. rewrite (trimmed_strip _ Ht).
  apply nonempty_true in Hn. rewrite Hn. cbn [map].
  rewrite (trimmed_strip _ Ht). f_equal. apply padded_items; assumption.
Qed.

Lemma extract_list_of_joined_witness :
  _extract_list (PStr (lit "Python, SQL, Git"))
  = [lit "Python"; lit "SQL"; lit "Git"].
Proof.
  apply (extract_list_of_joined (lit " ") [lit "Python"; lit "SQL"; lit "Git"]);
    [reflexivity|].
  repeat (apply List.Forall_cons;
          [split; [split; [discriminate | split; vm_compute; reflexivity]
                  | vm_compute; intuition discriminate]|]).
  exact (List.Forall_nil _).
Defined.

(** ** The skills catalog *)

Lemma filter_sublist {A} (f : A -> bool) (l : list A) :
  sublist (List.filter f l) l.
Proof.
  induction l as [|x l IH]; simpl; [constructor|].
  destruct (f x); [apply sublist_skip | apply sublist_cons]; exact IH.
Qed.

Lemma startswith_app_l (a b h : str) :
  startswith (a ++ b) h = true -> startswith a h = true.
Proof.
  revert h. induction a as [|c a IH]; intros h; [reflexivity|].
  destruct h as [|d h]; simpl; [discriminate|].
  intros H. apply andb_prop in H as [-> H]. exact (IH h H).
Qed.

Lemma contains_app_l (a b h : str) :
  contains (a ++ b) h = true -> contains a h = true.
Proof.
  induction h as [|d h IH]; cbn [contains]; intros H;
    apply orb_prop in H as [H|H].
  - rewrite (startswith_app_l _ _ _ H). reflexivity.
  - discriminate.
  - rewrite (startswith_app_l _ _ _ H). reflexivity.
  - rewrite (IH H). apply orb_true_r.
Qed.

Lemma common_skills_nodup : NoDup common_skills.
Proof. apply (bool_decide_unpack _). vm_compute. reflexivity. Qed.

(** X4. The skills fallback returns either the three placeholders, when no
    catalog term occurs in the resume, or catalog terms in the order of the
    catalog, none twice. *)
Theorem skills_fallback_catalog (resume_text : str) :
  NoDup (_extract_skills_fallback resume_text)
  /\ ((found_skills resume_text = []
       /\ _extract_skills_fallback resume_text = placeholder_skills)
      \/ (found_skills resume_text <> []
          /\ sublist (_extract_skills_fallback resume_text) common_skills)).
Proof.
  unfold _extract_skills_fallback.
  destruct (found_skills resume_text) as [|s l] eqn:E.
  - split; [apply (bool_decide_unpack _); vm_compute; reflexivity|].
    left. split; reflexivity.
  - assert (S : sublist (firstn 8 (s :: l)) common_skills).
    { etransitivity; [apply sublist_take|]. rewrite <- E. apply filter_sublist. }
    split; [eapply sublist_NoDup; [apply common_skills_nodup | exact S]|].
    right. split; [discriminate | exact S].
Qed.

Lemma In_firstn {A} (x : A) (n : nat) (l : list A) :
  In x (firstn n l) -> In x l.
Proof.
  revert l. induction n as [|n IH]; intros [|y l]; simpl; try tauto.
  intros [H|H]; [left; exact H | right; exact (IH l H)].
Qed.

(** X5. The match is a substring match: a resume that names JavaScript is
    reported to name Java as well. *)
Theorem javascript_brings_java (resume_text : str) :
  In (lit "JavaScript") (_extract_skills_fallback resume_text) ->
  In (lit "Java") (_extract_skills_fallback resume_text).
Proof.
  unfold _extract_skills_fallback.
  destruct (found_skills resume_text) as [|s l] eqn:E.
  { vm_compute. intros H. repeat destruct H as [H|H]; try discriminate H; destruct H. }
  rewrite <- E. clear E s l. intros H.
  apply In_firstn, found_skills_spec in H. destruct H as [_ Hjs].
  change (upper (lit "JavaScript")) with (upper (lit "Java") ++ lit "SCRIPT") in Hjs.
  pose proof (contains_app_l _ _ _ Hjs) as Hj.
  change (upper (lit "Java") ++ lit "SCRIPT") with (upper (lit "JavaScript")) in Hjs.
  unfold found_skills. cbv zeta.
  change common_skills
    with (lit "Python" :: lit "JavaScript" :: lit "Java" :: skipn 3 common_skills).
  cbn [List.filter]. rewrite Hjs, Hj.
  destruct (contains (upper (lit "Python")) (upper resume_text));
    cbn [firstn In]; [right; right; left | right; left]; reflexivity.
Qed.

Lemma javascript_brings_java_witness :
  In (lit "Java") (_extract_skills_fallback (lit "Senior JavaScript developer")).
Proof.
  apply javascript_brings_java. vm_compute. tauto.
Defined.

(** ** Fallback texts *)

Lemma fallback_summary_clean (r j : str) :
  clean_item (_generate_fallback_summary r j).
Proof. split; [discriminate|]. split; vm_compute; reflexivity. Qed.

Lemma common_skills_clean : Forall clean_item common_skills.
Proof.
  repeat (apply List.Forall_cons; [split; [discriminate | split; vm_compute; reflexivity]|]).
  apply List.Forall_nil.
Qed.

Lemma Forall_sublist {A} (P : A -> Prop) (l k : list A) :
  sublist l k -> Forall P k -> Forall P l.
Proof.
  induction 1 as [|x l k _ IH|x l k _ IH]; intros H.
  - constructor.
  - inversion H; subst. constructor; auto.
  - inversion H; subst. auto.
Qed.

(** ** What the patterns match *)






Lemma search_from_eq (r : re) (prev : option char) (s : str) :
  search_from r prev s =
  match mtch r prev s (fun _ rest => Some rest) with
  | Some rest => Some (firstn (length s - length rest) s)
  | None => match s with
            | c :: s' => search_from r (Some c) s'
            | [] => None
            end
  end.
Proof. destruct s; reflexivity. Qed.





















(** Literal alternatives are found exactly when one of them occurs. *)
Lemma mtch_Lit (t : str) :
  forall prev s,
    mtch (Lit t) prev s (fun _ rest => Some rest)
    = if startswith t s then Some (skipn (length t) s) else None.
Proof.
  induction t as [|c t IH]; intros prev s; [reflexivity|].
  cbn [Lit fold_right mtch]. fold (Lit t). unfold Lit1 at 1. cbn [mtch].
  destruct s as [|d s]; [reflexivity|].
  cbn [startswith length skipn].
  destruct (N.eqb c d); [apply IH | reflexivity].
Qed.

Lemma mtch_AltLits (alts : list str) (prev : option char) (s : str) :
  match mtch (AltLits alts) prev s (fun _ rest => Some rest) with
  | Some _ => true
  | None => false
  end = existsb (fun t => startswith t s) alts.
Proof.
  induction alts as [|t alts IH]; cbn [AltLits fold_right existsb].
  - cbn [mtch]. destruct s; reflexivity.
  - fold (AltLits alts). cbn [mtch]. rewrite mtch_Lit.
    destruct (startswith t s); [reflexivity | exact IH].
Qed.

Lemma existsb_eq {A} (f g : A -> bool) (l : list A) :
  (forall x, f x = g x) -> existsb f l = existsb g l.
Proof. intros H. induction l as [|x l IH]; simpl; [reflexivity|]. rewrite H, IH. reflexivity. Qed.

Lemma found_AltLits (alts : list str) (s : str) :
  found (AltLits alts) s = existsb (fun t => contains t s) alts.
Proof.
  unfold found, search. generalize (@None char).
  induction s as [|c s IH]; intros prev; rewrite search_from_eq.
  - pose proof (mtch_AltLits alts prev []) as M.
    destruct (mtch _ _ _ _).
    + rewrite M. apply existsb_eq. intros t. cbn [contains]. rewrite orb_false_r. reflexivity.
    + rewrite M. apply existsb_eq. intros t. cbn [contains]. rewrite orb_false_r. reflexivity.
  - pose proof (mtch_AltLits alts prev (c :: s)) as M.
    destruct (mtch _ _ _ _).
    + symmetry. apply existsb_exists. symmetry in M. apply existsb_exists in M.
      destruct M as (t & Hin & Ht). exists t. split; [exact Hin|].
      cbn [contains]. rewrite Ht. reflexivity.
    + rewrite IH. symmetry in M.
      assert (E : forall t, In t alts -> startswith t (c :: s) = false).
      { intros t Hin. destruct (startswith t (c :: s)) eqn:Et; [|reflexivity].
        rewrite <- M. symmetry. apply existsb_exists. eauto. }
      clear -E. induction alts as [|t alts IH]; [reflexivity|].
      cbn [existsb contains]. rewrite (E t (or_introl eq_refl)). cbn [orb].
      f_equal. apply IH. intros t' Hin. apply E. right. exact Hin.
Qed.

(** ** The experience and education sections *)

Lemma exp_header_says (line : str) :
  found exp_pattern (strip (lower line)) = says exp_words line.
Proof. apply found_AltLits. Qed.
Lemma exp_end_says (line : str) :
  found exp_end_pattern (strip (lower line)) = says exp_end_words line.
Proof. apply found_AltLits. Qed.

(** One turn of the experience loop. *)
Lemma experience_loop_cons (line : str) (rest : list str) (i : bool)
    (c : option ExperienceEntry) (a : list ExperienceEntry) :
  experience_loop (line :: rest) i c a =
  if says exp_words line then experience_loop rest true c a
  else if (i && says exp_end_words line)%bool then (c, flush c a)
  else if (i && nonempty (strip line))%bool then
    if (existsb isupper line || found (Exactly 4 Digit) line)%bool
    then experience_loop rest i (Some (new_entry line)) (flush c a)
    else
      match c with
      | Some e =>
          if (startswith bullet line || startswith (lit "-") line
              || startswith (lit "*") line)%bool
          then
            experience_loop rest i
              (Some (if nonempty (strip (lstrip_chars (bullet ++ lit "-* ") line))
                     then add_detail e (strip (lstrip_chars (bullet ++ lit "-* ") line))
                     else e)) a
          else experience_loop rest i c a
      | None => experience_loop rest i c a
      end
  else experience_loop rest i c a.
Proof.
  cbn [experience_loop]. rewrite exp_header_says, exp_end_says. reflexivity.
Qed.


Lemma experience_loop_outside (before rest : list str)
    (c : option ExperienceEntry) (a : list ExperienceEntry) :
  Forall (fun l => says exp_words l = false) before ->
  experience_loop (before ++ rest) false c a = experience_loop rest false c a.
Proof.
  induction 1 as [|l before Hl _ IH]; [reflexivity|].
  cbn [app]. rewrite experience_loop_cons, Hl. exact IH.
Qed.


Lemma experience_loop_body (body rest : list str) :
  Forall (fun l => exp_closer l = false) body ->
  forall c a,
    experience_loop (body ++ rest) true c a
    = experience_loop rest true (fst (experience_loop body true c a))
        (snd (experience_loop body true c a)).
Proof.
  induction 1 as [|l body Hl _ IH]; intros c a; [reflexivity|].
  cbn [app]. rewrite !experience_loop_cons.
  unfold exp_closer in Hl.
  destruct (says exp_words l); [apply IH|].
  rewrite andb_true_r in Hl. rewrite Hl. cbn [andb].
  repeat match goal with
         | |- context [if ?b then _ else _] => destruct b
         | |- context [match ?x with Some _ => _ | None => _ end] => destruct x
         end; apply IH.
Qed.

Lemma experience_loop_closer (z : str) (post : list str)
    (c : option ExperienceEntry) (a : list ExperienceEntry) :
  exp_closer z = true -> experience_loop (z :: post) true c a = (c, flush c a).
Proof.
  unfold exp_closer. intros H. apply andb_prop in H as [H1 H2].
  rewrite experience_loop_cons. apply negb_true_iff in H2. rewrite H1, H2. reflexivity.
Qed.


(** X7. When the experience section is closed by an end line while an entry is
    in progress, that entry is emitted twice; when the section runs to the
    end of the text, once. *)
Theorem experience_last_entry_doubled (resume_text : str)
    (before body post : list str) (h z : str)
    (e : ExperienceEntry) (emitted : list ExperienceEntry) :
  Forall (fun l => says exp_words l = false) before ->
  says exp_words h = true ->
  Forall (fun l => exp_closer l = false) body ->
  experience_loop body true None [] = (Some e, emitted) ->
  exp_closer z = true ->
  (split nl resume_text = before ++ h :: body ++ z :: post ->
   scanned_experience resume_text = emitted ++ [e; e])
  /\ (split nl resume_text = before ++ h :: body ->
      scanned_experience resume_text = emitted ++ [e]).
Proof.
  intros Hb Hh Hbody Hscan Hz. unfold scanned_experience.
  split; intros ->.
  - rewrite experience_loop_outside by exact Hb.
    rewrite experience_loop_cons, Hh.
    rewrite experience_loop_body by exact Hbody.
    rewrite Hscan. cbn [fst snd].
    rewrite experience_loop_closer by exact Hz.
    cbn [flush]. rewrite <- app_assoc. reflexivity.
  - rewrite experience_loop_outside by exact Hb.
    rewrite experience_loop_cons, Hh, Hscan. reflexivity.
Qed.

Lemma experience_last_entry_doubled_witness :
  _extract_experience demo_resume
  = [new_entry (lit "Engineer at ACME 2019 - Present");
     new_entry (lit "Engineer at ACME 2019 - Present")].
Proof.
  unfold _extract_experience.
  rewrite (proj1 (experience_last_entry_doubled demo_resume
             [lit "Jane A. Doe"; lit "jane.doe@example.com"]
             [lit "Engineer at ACME 2019 - Present"]
             [lit "BSc, University of Somewhere 2015"]
             (lit "Experience") (lit "Education")
             (new_entry (lit "Engineer at ACME 2019 - Present")) []
             ltac:(repeat constructor) eq_refl ltac:(repeat constructor)
             ltac:(vm_compute; reflexivity) eq_refl)
            ltac:(vm_compute; reflexivity)).
  reflexivity.
Defined.
















(** ** The engine end to end *)

Lemma found_skills_sublist (resume_text : str) :
  sublist (found_skills resume_text) common_skills.
Proof. apply filter_sublist. Qed.

Lemma skills_fallback_clean (resume_text : str) :
  Forall clean_item (_extract_skills_fallback resume_text).
Proof.
  unfold _extract_skills_fallback.
  pose proof (found_skills_sublist resume_text) as S.
  destruct (found_skills resume_text) as [|s l].
  - repeat (apply List.Forall_cons; [split; [discriminate | split; vm_compute; reflexivity]|]).
    apply List.Forall_nil.
  - eapply Forall_sublist; [|apply common_skills_clean].
    etransitivity; [apply sublist_take | exact S].
Qed.

Lemma skills_fallback_nonempty (resume_text : str) :
  _extract_skills_fallback resume_text <> [].
Proof.
  pose proof (skills_fallback_length resume_text) as H.
  destruct (_extract_skills_fallback resume_text); [simpl in H; lia | discriminate].
Qed.

Lemma build_result_not_mapping (parsed : pyval) (pi : PersonalInfo)
    (resume_text job_desc : str) :
  is_dict parsed = false ->
  _build_result parsed pi resume_text job_desc
  = if truthy parsed then Raise AttributeError
    else _build_result (PDict []) pi resume_text job_desc.
Proof.
  intros H. unfold _build_result.
  destruct parsed; try discriminate H; cbn [truthy];
    repeat match goal with
      | |- context [if ?b then _ else _] => destruct b
      | |- context [match ?x with _ => _ end] => destruct x
      end; reflexivity.
Qed.

Lemma build_result_mapping_well_formed (d : list (str * pyval))
    (pi : PersonalInfo) (resume_text job_desc : str) (r : AnalysisResult) :
  _build_result (PDict d) pi resume_text job_desc = Ok r -> well_formed r.
Proof.
  intros H. destruct (build_result_well_formed _ _ _ _ _ H) as (W1 & W2 & W3).
  revert H. rewrite build_result_mapping.
  destruct (_extract_score _) as [n|e]; [|discriminate].
  cbn [bind]. intros [= <-]. unfold well_formed.
  cbn [summary cover_letter skills missing_keywords personal_info
       match_score experience education] in *.
  refine (conj W1 (conj (conj _ _) (conj _ (conj _ (conj _ (conj _ (conj W2 W3))))))).
  - destruct (nonempty _) eqn:E; [apply nonempty_true, E | discriminate].
  - destruct (nonempty _); [apply strip_trimmed | exact (proj2 (fallback_summary_clean _ _))].
  - destruct (nonempty _) eqn:E; [apply nonempty_true, E | discriminate].
  - destruct (length (coerced_skills d) <? 3)%nat eqn:E.
    + apply skills_fallback_nonempty.
    + apply Nat.ltb_ge in E. destruct (coerced_skills d); [simpl in E; lia | discriminate].
  - destruct (length (coerced_skills d) <? 3)%nat;
      [apply skills_fallback_clean | apply extract_list_clean].
  - apply extract_list_clean.
Qed.

Lemma build_result_any_well_formed (parsed : pyval) (pi : PersonalInfo)
    (resume_text job_desc : str) (r : AnalysisResult) :
  _build_result parsed pi resume_text job_desc = Ok r -> well_formed r.
Proof.
  destruct (is_dict parsed) eqn:D.
  - destruct parsed; try discriminate D. apply build_result_mapping_well_formed.
  - rewrite build_result_not_mapping by exact D.
    destruct (truthy parsed); [discriminate|].
    apply build_result_mapping_well_formed.
Qed.

(** X11. Well-formedness is an invariant of the engine: if every cached result
    is well formed, then so is whatever [analyze] returns and every result
    cached afterwards. A well-formed result has a score between 0 and 100,
    a trimmed non-empty summary, a non-empty cover letter, at least one
    skill, only trimmed non-empty skills and missing keywords, one to three
    experience entries and one or two education entries. *)
Theorem analyze_well_formed (svc : service) (self self' : engine)
    (resume_text job_desc : str) (res : result AnalysisResult)
    (sent : list event) :
  (forall k r, cache self !! k = Some r -> well_formed r) ->
  analyze svc self resume_text job_desc = (res, self', sent) ->
  (forall r, res = Ok r -> well_formed r)
  /\ (forall k r, cache self' !! k = Some r -> well_formed r).
Proof.
  intros Hinv. unfold analyze.
  destruct (_get_cache_key resume_text job_desc) as [key|e];
    [|intros [= <- <- <-]; split; [discriminate | exact Hinv]].
  destruct (cache self !! key) as [cached|] eqn:Hc.
  { intros [= <- <- <-]. split; [|exact Hinv].
    intros r [= <-]. exact (Hinv _ _ Hc). }
  destruct (_test_ollama_connection svc); cbn [negb];
    [|intros [= <- <- <-]; split; [discriminate | exact Hinv]].
  destruct (_call_ollama _ _ _ _);
    [|intros [= <- <- <-]; split; [discriminate | exact Hinv]].
  destruct (_extract_json_from_response _);
    [|intros [= <- <- <-]; split; [discriminate | exact Hinv]].
  destruct (_build_result _ _ _ _) as [r'|] eqn:Hb;
    [|intros [= <- <- <-]; split; [discriminate | exact Hinv]].
  apply build_result_any_well_formed in Hb.
  intros [= <- <- <-]. split; [intros r [= <-]; exact Hb|].
  intros k r. cbn [with_cache cache].
  destruct (decide (k = key)) as [->|Hne].
  - rewrite lookup_insert_eq. intros [= <-]. exact Hb.
  - rewrite lookup_insert_ne by congruence. apply Hinv.
Qed.

Lemma analyze_well_formed_witness :
  exists r self1 sent1,
    analyze demo_service demo_engine demo_resume demo_job = (Ok r, self1, sent1)
    /\ well_formed r.
Proof.
  destruct (analyze demo_service demo_engine demo_resume demo_job)
    as [[[r|e] self1] sent1] eqn:E.
  - exists r, self1, sent1. split; [reflexivity|].
    refine (proj1 (analyze_well_formed demo_service demo_engine self1
                     demo_resume demo_job (Ok r) sent1 _ E) r eq_refl).
    intros k r0 H. vm_compute in H. discriminate H.
  - exfalso. vm_compute in E. discriminate E.
Defined.

Lemma build_result_empty_mapping (resume_text job_desc : str) :
  _build_result (PDict []) (_extract_personal_info resume_text)
    resume_text job_desc
  = Ok (fallback_result resume_text job_desc).
Proof.
  rewrite build_result_mapping. cbn [dict_get].
  rewrite extract_score_default. cbn [bind].
  unfold fallback_result. reflexivity.
Qed.

(** X12. A completion that spells a JSON value other than a non-empty object:
    when the value is falsy (the empty object, the empty list, zero, null,
    the empty text, false) [analyze] returns and caches the result made of
    fallbacks only, with score 0; when it is truthy and not an object
    (a non-empty list, a number, a text, true) [analyze] raises
    AttributeError and caches nothing. *)
Theorem analyze_completion_not_object (svc : service) (self : engine)
    (resume_text job_desc key response : str) (v : pyval) :
  _get_cache_key resume_text job_desc = Ok key ->
  cache self !! key = None ->
  _test_ollama_connection svc = true ->
  _call_ollama svc self (_build_analysis_prompt resume_text job_desc) 2000
  = Ok response ->
  _extract_json_from_response response = Ok v ->
  let sent := [Probe; Generate (model_name self)
                        (_build_analysis_prompt resume_text job_desc)] in
  (truthy v = false ->
   analyze svc self resume_text job_desc
   = (Ok (fallback_result resume_text job_desc),
      with_cache self
        (<[key := fallback_result resume_text job_desc]> (cache self)),
      sent))
  /\ (truthy v = true -> is_dict v = false ->
      analyze svc self resume_text job_desc = (Raise AttributeError, self, sent)).
Proof.
  intros Hk Hc Hp Hcall Hv sent. unfold analyze.
  rewrite Hk, Hc, Hp, Hcall, Hv. cbn [negb].
  split.
  - intros Hf.
    assert (E : _build_result v (_extract_personal_info resume_text)
                  resume_text job_desc
                = Ok (fallback_result resume_text job_desc)).
    { destruct (is_dict v) eqn:D.
      - destruct v as [| | | | | |d]; try discriminate D.
        destruct d; [|discriminate Hf]. apply build_result_empty_mapping.
      - rewrite build_result_not_mapping by exact D. rewrite Hf.
        apply build_result_empty_mapping. }
    rewrite E. reflexivity.
  - intros Ht D. rewrite build_result_not_mapping by exact D. rewrite Ht.
    reflexivity.
Qed.

Lemma analyze_completion_not_object_witness :
  analyze list_service demo_engine demo_resume demo_job
  = (Raise AttributeError, demo_engine,
     [Probe; Generate (model_name demo_engine)
               (_build_analysis_prompt demo_resume demo_job)]).
Proof.
  refine (proj2 (analyze_completion_not_object list_service demo_engine
                   demo_resume demo_job
                   (lit "2f995a3df427c27fc6624aa9a959fd6f") (lit "[1, 2]")
                   (PList [PInt 1; PInt 2]) _ _ _ _ _) _ _);
    vm_compute; reflexivity.
Defined.

(** X13. Requests that agree on the first 1000 characters of the resume and the
    first 500 of the job description share a cache entry: after a call that
    returned [r], a call for another resume and job description with the
    same prefixes returns [r] again (the personal information, experience
    and education of the first resume included) and sends nothing. *)
Theorem stale_result_for_shared_prefixes (svc1 svc2 : service)
    (self self1 : engine) (r1 j1 r2 j2 : str) (r : AnalysisResult)
    (sent1 : list event) :
  analyze svc1 self r1 j1 = (Ok r, self1, sent1) ->
  str_upto 1000 r1 = str_upto 1000 r2 ->
  str_upto 500 j1 = str_upto 500 j2 ->
  analyze svc2 self1 r2 j2 = (Ok r, self1, []).
Proof.
  intros H Hr Hj.
  assert (K : _get_cache_key r2 j2 = _get_cache_key r1 j1)
    by (unfold _get_cache_key, combined; rewrite Hr, Hj; reflexivity).
  unfold analyze in *. rewrite K.
  destruct (_get_cache_key r1 j1) as [key|e]; [|discriminate].
  destruct (cache self !! key) as [cached|] eqn:Hc.
  - injection H as <- <- <-. rewrite Hc. reflexivity.
  - destruct (_test_ollama_connection svc1); cbn [negb] in H; [|discriminate].
    destruct (_call_ollama _ _ _ _); [|discriminate].
    destruct (_extract_json_from_response _); [|discriminate].
    destruct (_build_result _ _ _ _) as [r'|]; [|discriminate].
    injection H as <- <- <-. cbn [with_cache cache].
    rewrite lookup_insert_eq. reflexivity.
Qed.

Lemma read_lines_done_cuts (pre post : list str) (msg : str)
    (last : stream_end) (acc t : str) :
  read_lines pre (Broken msg) acc = Ok t ->
  read_lines (pre ++ post) last acc = Ok t.
Proof.
  revert acc. induction pre as [|line pre IH]; intros acc; [discriminate|].
  cbn [app read_lines].
  destruct line as [|c line]; [apply IH|].
  destruct (loads (c :: line)) as [v|e].
  - destruct v; try discriminate.
    destruct (dict_get _ _ _); try discriminate.
    destruct (truthy _); [trivial | apply IH].
  - destruct (is_JSONDecodeError e); [apply IH | discriminate].
Qed.

Lemma stale_result_for_shared_prefixes_witness :
  exists r self1 sent1,
    analyze demo_service demo_engine (long_resume (lit "X")) demo_job
    = (Ok r, self1, sent1)
    /\ analyze down_service self1 (long_resume (lit "Y")) demo_job
       = (Ok r, self1, []).
Proof.
  destruct (analyze demo_service demo_engine (long_resume (lit "X")) demo_job)
    as [[[r|e] self1] sent1] eqn:E.
  - exists r, self1, sent1. split; [reflexivity|].
    apply (stale_result_for_shared_prefixes demo_service down_service
             demo_engine self1 (long_resume (lit "X")) demo_job
             (long_resume (lit "Y")) demo_job r sent1 E);
      vm_compute; reflexivity.
  - exfalso. vm_compute in E. discriminate E.
Defined.

(** X14. Once a chunk marked done has been read, nothing after it is: if the
    lines [pre] give the text [t] even when the stream breaks right after
    them, then for any stream that starts with [pre] the call returns [t]
    trimmed, whatever the later lines hold and however the stream ends. *)
Theorem call_ollama_stops_at_done (svc : service) (self : engine)
    (prompt msg t : str) (max_tokens : Z) (pre post : list str)
    (last : stream_end) :
  generate svc (model_name self) prompt max_tokens = Streams (pre ++ post) last ->
  read_lines pre (Broken msg) [] = Ok t ->
  _call_ollama svc self prompt max_tokens = Ok (strip t).
Proof.
  intros Hg Hr. unfold _call_ollama. rewrite Hg.
  rewrite (read_lines_done_cuts pre post msg last [] t Hr). reflexivity.
Qed.

Lemma call_ollama_stops_at_done_witness :
  _call_ollama chatty_service demo_engine [] 2000 = Ok (lit "{}").
Proof.
  apply (call_ollama_stops_at_done chatty_service demo_engine [] (lit "reset")
           (lit "{}") 2000 [final_chunk] [late_chunk] (Broken (lit "reset")));
    vm_compute; reflexivity.
Defined.

(** X15. The prompt is a fixed frame of 1525 characters around the first 2000
    characters of the resume and the first 1500 of the job description:
    it depends on nothing else and is never longer than 5025 characters
    (1525 + 3500). *)
Theorem prompt_of_prefixes (r1 j1 r2 j2 : str) :
  (str_upto 2000 r1 = str_upto 2000 r2 ->
   str_upto 1500 j1 = str_upto 1500 j2 ->
   _build_analysis_prompt r1 j1 = _build_analysis_prompt r2 j2)
  /\ length (_build_analysis_prompt r1 j1)
     = (1525 + Nat.min 2000 (length r1) + Nat.min 1500 (length j1))%nat
  /\ (length (_build_analysis_prompt r1 j1) <= 1525 + 3500)%nat.
Proof.
  assert (F : length (_build_analysis_prompt [] []) = 1525%nat)
    by (vm_compute; reflexivity).
  assert (L : length (_build_analysis_prompt r1 j1)
     = (length (_build_analysis_prompt [] [])
        + Nat.min 2000 (length r1) + Nat.min 1500 (length j1))%nat).
  { unfold _build_analysis_prompt. cbv zeta.
    unfold str_upto. rewrite !length_app, !length_firstn.
    change (length (@nil N)) with 0%nat. lia. }
  rewrite F in L.
  split; [|split].
  - intros Hr Hj. unfold _build_analysis_prompt. cbv zeta. rewrite Hr, Hj. reflexivity.
  - exact L.
  - rewrite L. lia.
Qed.


(** ** A fenced block *)







(** ** An object in prose *)








(** ** Extraction from the PDF and the guard of the page script *)

Lemma page_texts_blank (pages : list page) (text : str) :
  forallb blank_page pages = true ->
  forallb isspace text = true ->
  forallb isspace (page_texts pages text) = true.
Proof.
  revert text. induction pages as [|p pages IH]; intros text Hp Ht; [exact Ht|].
  cbn [forallb] in Hp. apply andb_prop in Hp as [Hb Hp].
  destruct p as [[extracted|]|msg]; cbn [page_texts]; try (apply IH; assumption).
  destruct (nonempty extracted); [|apply IH; assumption].
  apply IH; [exact Hp|]. cbn [blank_page] in Hb.
  rewrite !List.forallb_app.
  apply andb_true_intro. split; [exact Ht|].
  apply andb_true_intro. split; [exact Hb | reflexivity].
Qed.

Lemma error_reading_rejected (msg : str) :
  extraction_failed (error_reading msg) = true.
Proof. reflexivity. Qed.

(** X19. A file whose pages give no text is not turned away: the text
    extracted is the no-text message, which passes the test of the page
    script (it has more than 50 characters and does not hold "Error
    reading PDF"), so that the message itself is analysed as the resume. A
    file without pages and a file that cannot be read are turned away
    without any request to the model service. *)
Theorem scanned_pdf_is_analysed (pages : list page)
    (job_desc model_choice : str) (svc : service) :
  pages <> [] ->
  forallb blank_page pages = true ->
  (50 <= length (strip job_desc))%nat ->
  extract_text_from_pdf (Opens pages) = no_text_message
  /\ on_click (Some (Opens pages)) job_desc model_choice svc
     = match analyze svc (__init__ model_choice) no_text_message job_desc with
       | (Ok result, _, sent) => (Analysed no_text_message result, sent)
       | (Raise e, _, sent) => (ProcessingError e, sent)
       end
  /\ on_click (Some (Opens [])) job_desc model_choice svc = (ExtractionFailed, [])
  /\ forall msg,
       on_click (Some (Unreadable msg)) job_desc model_choice svc
       = (ExtractionFailed, []).
Proof.
  intros Hne Hb Hj.
  assert (Hjn : nonempty job_desc = true).
  { destruct job_desc; [simpl in Hj; lia | reflexivity]. }
  assert (Hjl : (length (strip job_desc) <? 50)%nat = false)
    by (apply Nat.ltb_ge; exact Hj).
  assert (E : extract_text_from_pdf (Opens pages) = no_text_message).
  { unfold extract_text_from_pdf. destruct pages as [|p pages]; [congruence|].
    rewrite (strip_blank (page_texts (p :: pages) []));
      [reflexivity | apply page_texts_blank; [exact Hb | reflexivity]]. }
  split; [exact E|]. unfold on_click. rewrite Hjn, Hjl, E.
  split; [reflexivity|]. split; [reflexivity|].
  intros msg. cbn [extract_text_from_pdf]. rewrite error_reading_rejected.
  reflexivity.
Qed.

Lemma scanned_pdf_is_analysed_witness :
  on_click (Some scanned_file) long_job (lit "orca-mini:latest") down_service
  = (ProcessingError (cannot_connect (__init__ (lit "orca-mini:latest"))),
     [Probe]).
Proof.
  unfold scanned_file.
  rewrite (proj1 (proj2 (scanned_pdf_is_analysed
             [Extracts None; PageRaises (lit "no text layer");
              Extracts (Some (lit "  "))]
             long_job (lit "orca-mini:latest") down_service
             ltac:(discriminate) eq_refl ltac:(vm_compute; lia)))).
  vm_compute. reflexivity.
Defined.

(** X20. Every click that ends with a result has sent one probe and one
    generation request: the handler makes a new engine for each click, so
    the cache of the engine never answers. The text analysed is the one
    extracted from the file, and the result is well formed. *)
Theorem click_never_uses_cache (file : pdf_file) (job_desc model_choice : str)
    (svc : service) (raw_text : str) (r : AnalysisResult) (sent : list event) :
  on_click (Some file) job_desc model_choice svc = (Analysed raw_text r, sent) ->
  raw_text = extract_text_from_pdf file
  /\ extraction_failed raw_text = false
  /\ sent = [Probe; Generate model_choice
                      (_build_analysis_prompt raw_text job_desc)]
  /\ well_formed r.
Proof.
  unfold on_click.
  destruct (nonempty job_desc); [|discriminate].
  destruct (length (strip job_desc) <? 50)%nat; [discriminate|].
  destruct (extraction_failed (extract_text_from_pdf file)) eqn:G; [discriminate|].
  unfold analyze.
  destruct (_get_cache_key _ _) as [key|e]; [|discriminate].
  cbn [__init__ cache model_name]. rewrite lookup_empty.
  destruct (_test_ollama_connection svc); cbn [negb]; [|discriminate].
  destruct (_call_ollama _ _ _ _); [|discriminate].
  destruct (_extract_json_from_response _); [|discriminate].
  destruct (_build_result _ _ _ _) as [r'|] eqn:Hb; [|discriminate].
  intros [= <- <- <-].
  repeat split; try assumption; try reflexivity.
  all: apply build_result_any_well_formed in Hb; apply Hb.
Qed.

Lemma click_never_uses_cache_witness :
  exists r,
    on_click (Some (Opens [Extracts (Some demo_resume)])) long_job
      (lit "orca-mini:latest") demo_service
    = (Analysed demo_resume r,
       [Probe; Generate (lit "orca-mini:latest")
                 (_build_analysis_prompt demo_resume long_job)])
    /\ well_formed r.
Proof.
  destruct (on_click (Some (Opens [Extracts (Some demo_resume)])) long_job
              (lit "orca-mini:latest") demo_service) as [[| | | e | raw r] sent] eqn:E;
    try (exfalso; vm_compute in E; discriminate E).
  destruct (click_never_uses_cache _ _ _ _ _ _ _ E) as (H1 & _ & H3 & H4).
  exists r. split; [|exact H4].
  rewrite H1, H3, H1. vm_compute extract_text_from_pdf.
  reflexivity.
Defined.

(** ** The gauge *)

(** X21. The gauge never shows the score of a result: the score of a result is
    an integer, the gauge converts texts and floats only and shows 0 for
    anything else, so that the message under it is the one for a low
    match, whatever the score. *)
Theorem gauge_ignores_score (r : AnalysisResult) :
  gauge_score (result_dict r) = Ok 0%Z
  /\ (forall score, gauge_score (result_dict r) = Ok score ->
        interpretation score = Low).
Proof.
  assert (H : gauge_score (result_dict r) = Ok 0%Z) by reflexivity.
  split; [exact H|]. intros score. rewrite H. intros [= <-]. reflexivity.
Qed.

(** ** The PDF writer *)



Ltac bind_ok H :=
  repeat match type of H with
    | bind ?m _ = Ok _ =>
        let E := fresh "E" in
        destruct m eqn:E; cbn [bind] in H; [|discriminate H]
    end.




Lemma headers_app (a b : list flowable) : headers (a ++ b) = headers a ++ headers b.
Proof. apply flat_map_app. Qed.

(** ** The PDF of a result *)

Lemma appended_refl (elements : list flowable) : appended elements elements.
Proof. exists []. split; [symmetry; apply app_nil_r | reflexivity]. Qed.

Lemma appended_trans (a b c : list flowable) :
  appended a b -> appended b c -> appended a c.
Proof.
  intros (x & -> & Hx) (y & -> & Hy). exists (x ++ y).
  split; [symmetry; apply app_assoc | rewrite headers_app, Hx, Hy; reflexivity].
Qed.

Lemma appended_one (elements : list flowable) (f : flowable) :
  headers [f] = [] -> appended elements (elements ++ [f]).
Proof. intros H. exists [f]. split; [reflexivity | exact H]. Qed.

Lemma add_if_text_appended (rl : reportlab) (text : str) (st : style)
    (elements elements' : list flowable) :
  st <> section_header_style ->
  add_if_text rl text st elements = Ok elements' ->
  appended elements elements'.
Proof.
  intros Hst. unfold add_if_text, paragraph.
  destruct (nonempty text); [|intros [= <-]; apply appended_refl].
  destruct (accepts rl text st); cbn [bind]; [|discriminate].
  intros [= <-]. apply appended_one. destruct st; try congruence; reflexivity.
Qed.

Lemma detail_paragraphs_appended (rl : reportlab) (details : list pyval) :
  forall elements elements',
    detail_paragraphs rl details elements = Ok elements' ->
    appended elements elements'.
Proof.
  induction details as [|d details IH]; intros elements elements';
    cbn [detail_paragraphs]; [intros [= <-]; apply appended_refl|].
  destruct (truthy d && nonempty (strip (py_str d)))%bool; [|apply IH].
  unfold paragraph. destruct (accepts rl _ _); cbn [bind]; [|discriminate].
  intros H. apply IH in H.
  eapply appended_trans; [|exact H]. apply appended_one. reflexivity.
Qed.

Lemma experience_paragraphs_appended (rl : reportlab) (n : nat)
    (experience : list pyval) :
  forall idx elements elements',
    experience_paragraphs rl n idx experience elements = Ok elements' ->
    appended elements elements'.
Proof.
  induction experience as [|exp experience IH]; intros idx elements elements';
    cbn [experience_paragraphs]; [intros [= <-]; apply appended_refl|].
  destruct exp as [| | | | | |e]; try apply IH.
  intros H.
  destruct (get_text e (lit "role") []) as [x1|]; cbn [bind] in H; [|discriminate H].
  destruct (get_text e (lit "company") []) as [x2|]; cbn [bind] in H; [|discriminate H].
  destruct (get_text e (lit "duration") []) as [x3|]; cbn [bind] in H; [|discriminate H].
  destruct (add_if_text rl x1 _ _) as [e1|] eqn:E1; cbn [bind] in H; [|discriminate H].
  destruct (add_if_text rl x2 _ _) as [e2|] eqn:E2; cbn [bind] in H; [|discriminate H].
  destruct (add_if_text rl x3 _ _) as [e3|] eqn:E3; cbn [bind] in H; [|discriminate H].
  apply add_if_text_appended in E1, E2, E3; try discriminate.
  destruct (match dict_get e (lit "details") (PList []) with
            | PList details => detail_paragraphs rl details e3
            | _ => Ok e3
            end) as [e4|] eqn:E4; cbn [bind] in H; [|discriminate H].
  assert (H4 : appended e3 e4).
  { destruct (dict_get e (lit "details") (PList []));
      try (injection E4 as <-; apply appended_refl).
    eapply detail_paragraphs_appended, E4. }
  apply IH in H.
  eapply appended_trans; [exact E1|]. eapply appended_trans; [exact E2|].
  eapply appended_trans; [exact E3|]. eapply appended_trans; [exact H4|].
  eapply appended_trans; [|exact H].
  destruct (idx <? n - 1)%nat; [apply appended_one; reflexivity | apply appended_refl].
Qed.

Lemma education_paragraphs_appended (rl : reportlab) (education : list pyval) :
  forall elements elements',
    education_paragraphs rl education elements = Ok elements' ->
    appended elements elements'.
Proof.
  induction education as [|edu education IH]; intros elements elements';
    cbn [education_paragraphs]; [intros [= <-]; apply appended_refl|].
  destruct edu as [| | | | | |e]; try apply IH.
  intros H.
  destruct (get_text e (lit "degree") []) as [x1|]; cbn [bind] in H; [|discriminate H].
  destruct (get_text e (lit "institution") []) as [x2|]; cbn [bind] in H; [|discriminate H].
  destruct (get_text e (lit "year") []) as [x3|]; cbn [bind] in H; [|discriminate H].
  destruct (add_if_text rl x1 _ _) as [e1|] eqn:E1; cbn [bind] in H; [|discriminate H].
  destruct (add_if_text rl x2 _ _) as [e2|] eqn:E2; cbn [bind] in H; [|discriminate H].
  destruct (add_if_text rl x3 _ _) as [e3|] eqn:E3; cbn [bind] in H; [|discriminate H].
  apply add_if_text_appended in E1, E2, E3; try discriminate.
  apply IH in H.
  eapply appended_trans; [exact E1|]. eapply appended_trans; [exact E2|].
  eapply appended_trans; [exact E3|]. eapply appended_trans; [|exact H].
  apply appended_one. reflexivity.
Qed.

Lemma clean_strip (s : str) : clean_item s -> strip s = s /\ nonempty s = true.
Proof.
  intros [Hn Ht]. split; [apply trimmed_strip, Ht | apply nonempty_true, Hn].
Qed.

Lemma skills_list_of_clean (l : list str) :
  Forall clean_item l ->
  map (fun s => strip (py_str s))
    (List.filter (fun s => (truthy s && nonempty (strip (py_str s)))%bool)
       (map PStr l)) = l.
Proof.
  induction 1 as [|s l Hs _ IH]; [reflexivity|].
  destruct (clean_strip s Hs) as [E1 E2].
  cbn [map List.filter py_str truthy].
  destruct s as [|c s]; [discriminate E2|].
  rewrite E1. cbn [nonempty andb map py_str]. rewrite E1, IH. reflexivity.
Qed.

Lemma pdf_title_nonempty (r : AnalysisResult) : nonempty (pdf_title r) = true.
Proof.
  unfold pdf_title. destruct (nonempty (strip _)) eqn:E; [exact E | reflexivity].
Qed.

Lemma info_name (info : PersonalInfo) :
  as_mapping (personal_info_dict info)
  = Ok [(lit "name", PStr (name info)); (lit "email", PStr (email info));
        (lit "phone", PStr (phone info))]
  /\ get_text [(lit "name", PStr (name info)); (lit "email", PStr (email info));
               (lit "phone", PStr (phone info))] (lit "name") []
     = Ok (strip (name info))
  /\ get_text [(lit "name", PStr (name info)); (lit "email", PStr (email info));
               (lit "phone", PStr (phone info))] (lit "email") []
     = Ok (strip (email info))
  /\ get_text [(lit "name", PStr (name info)); (lit "email", PStr (email info));
               (lit "phone", PStr (phone info))] (lit "phone") []
     = Ok (strip (phone info)).
Proof. repeat split. Qed.

Lemma result_texts (r : AnalysisResult) :
  get_text (result_dict r) (lit "name") (lit "Resume") = Ok (lit "Resume")
  /\ get_text (result_dict r) (lit "summary") [] = Ok (strip (summary r)).
Proof. split; reflexivity. Qed.

(** X23. The PDF of a well-formed result: its file is named after the title,
    which is the candidate's name or "Resume" when none was found; the
    title is its first flowable; and it has the four section headers, in
    this order: summary, skills, experience, education. *)
Theorem pdf_sections_of_result (rl : reportlab) (r : AnalysisResult)
    (filename : str) (elements : list flowable) :
  well_formed r ->
  pdf_document rl (result_dict r) = Ok (filename, elements) ->
  filename = underscore_runs false (keep_safe (pdf_title r)) ++ lit "_Resume.pdf"
  /\ head elements = Some (Paragraph (pdf_title r) name_style)
  /\ headers elements
     = [lit "PROFESSIONAL SUMMARY"; lit "KEY SKILLS";
        lit "PROFESSIONAL EXPERIENCE"; lit "EDUCATION"].
Proof.
  intros (_ & Wsum & _ & Wsk & Wskc & _ & Wexp & Wedu) H.
  unfold pdf_document in H.
  change (dict_get (result_dict r) (lit "personal_info") (PDict []))
    with (personal_info_dict (personal_info r)) in H.
  change (dict_get (result_dict r) (lit "skills") (PList []))
    with (PList (map PStr (skills r))) in H.
  change (dict_get (result_dict r) (lit "experience") (PList []))
    with (PList (map experience_dict (experience r))) in H.
  change (dict_get (result_dict r) (lit "education") (PList []))
    with (PList (map education_dict (education r))) in H.
  destruct (info_name (personal_info r)) as (I0 & I1 & I2 & I3).
  destruct (result_texts r) as (R1 & R2).
  rewrite I0 in H. cbn [bind] in H. rewrite I1 in H. cbn [bind] in H.
  rewrite I2, I3, R1, R2 in H.
  assert (T : (if negb (nonempty (strip (name (personal_info r))))
               then Ok (lit "Resume")
               else Ok (strip (name (personal_info r))))
              = Ok (pdf_title r)).
  { unfold pdf_title. destruct (nonempty (strip _)); reflexivity. }
  rewrite T in H. cbn [bind] in H.
  rewrite (pdf_title_nonempty r) in H. cbn [negb] in H.
  destruct (clean_strip _ Wsum) as [S1 S2]. rewrite S1, S2 in H.
  unfold paragraph at 1 in H.
  destruct (accepts rl (pdf_title r) name_style); cbn [bind] in H; [|discriminate H].
  set (title := Paragraph (pdf_title r) name_style) in *.
  match type of H with
  | bind ?m _ = _ => destruct m as [els|] eqn:C; cbn [bind] in H; [|discriminate H]
  end.
  assert (A0 : appended [title] els).
  { destruct (nonempty (_ ++ _)).
    - unfold paragraph in C. destruct (accepts rl _ _); cbn [bind] in C; [|discriminate C].
      injection C as <-. refine (ex_intro _ [_] (conj eq_refl eq_refl)).
    - injection C as <-. refine (ex_intro _ [_] (conj eq_refl eq_refl)). }
  clear C.
  unfold paragraph at 1 2 in H.
  destruct (accepts rl (lit "PROFESSIONAL SUMMARY") _); cbn [bind] in H; [|discriminate H].
  destruct (accepts rl (summary r) _); cbn [bind] in H; [|discriminate H].
  rewrite (skills_list_of_clean _ Wskc) in H.
  destruct (skills r) as [|s0 sk] eqn:Esk; [congruence|].
  cbn [map nonempty] in H. rewrite <- Esk in H.
  unfold paragraph at 1 2 in H.
  destruct (accepts rl (lit "KEY SKILLS") _); cbn [bind] in H; [|discriminate H].
  destruct (accepts rl (join _ _) _); cbn [bind] in H; [|discriminate H].
  destruct (experience r) as [|x0 xs] eqn:Eexp; [simpl in Wexp; lia|].
  cbn [map] in H.
  unfold paragraph at 1 in H.
  destruct (accepts rl (lit "PROFESSIONAL EXPERIENCE") _); cbn [bind] in H; [|discriminate H].
  match type of H with
  | bind (bind ?m _) _ = _ => destruct m as [els2|] eqn:C2; cbn [bind] in H; [|discriminate H]
  end.
  apply experience_paragraphs_appended in C2.
  destruct (education r) as [|d0 ds] eqn:Eedu; [simpl in Wedu; lia|].
  cbn [map] in H.
  unfold paragraph at 1 in H.
  destruct (accepts rl (lit "EDUCATION") _); cbn [bind] in H; [|discriminate H].
  match type of H with
  | bind ?m _ = _ => destruct m as [els3|] eqn:C3; cbn [bind] in H; [|discriminate H]
  end.
  apply education_paragraphs_appended in C3.
  injection H as <- <-.
  destruct A0 as (x0' & -> & Hx0), C2 as (x2 & -> & Hx2), C3 as (x3 & -> & Hx3).
  split; [reflexivity|]. split; [reflexivity|].
  rewrite !headers_app, Hx0, Hx2, Hx3. reflexivity.
Qed.

Lemma pdf_sections_of_result_witness :
  exists filename elements,
    pdf_document permissive (result_dict (fallback_result demo_resume demo_job))
    = Ok (filename, elements)
    /\ filename = lit "Jane_A_Doe_Resume.pdf"
    /\ headers elements
       = [lit "PROFESSIONAL SUMMARY"; lit "KEY SKILLS";
          lit "PROFESSIONAL EXPERIENCE"; lit "EDUCATION"].
Proof.
  destruct (pdf_document permissive
              (result_dict (fallback_result demo_resume demo_job)))
    as [[filename elements]|e] eqn:E.
  - exists filename, elements. split; [reflexivity|].
    destruct (pdf_sections_of_result permissive
                (fallback_result demo_resume demo_job) filename elements)
      as (H1 & _ & H3); [| exact E | ].
    + unfold well_formed. repeat split; try (vm_compute; congruence);
        try (vm_compute; lia); try discriminate;
        try (repeat (apply List.Forall_cons; [split; [discriminate | split; vm_compute; reflexivity]|]);
             exact (List.Forall_nil _)).
    + split; [rewrite H1; vm_compute; reflexivity | exact H3].
  - exfalso. vm_compute in E. discriminate E.
Defined.

(** ** The validity check *)

(** X24. A result counts as valid exactly when a name was found in the
    resume. *)
Theorem validate_result (r : AnalysisResult) :
  validate_resume_data (result_dict r)
  = Ok (nonempty (name (personal_info r))).
Proof.
  unfold validate_resume_data.
  change (forallb (has_key (result_dict r)) required_fields) with true.
  cbn [negb].
  change (dict_get (result_dict r) (lit "personal_info") (PDict []))
    with (personal_info_dict (personal_info r)).
  cbn [personal_info_dict as_mapping bind].
  change (dict_get _ (lit "name") PNone) with (PStr (name (personal_info r))).
  destruct (name (personal_info r)); reflexivity.
Qed.

(** ** The keyword banner *)




(** ** Values of the model that are not texts *)

(** X26. A summary or a cover letter that the model gives as [null] is not
    replaced by the fallback: the result holds the text "None". The
    fallback is used when the key is absent or its value is an empty or
    blank text. *)
Theorem null_summary_is_kept (d : list (str * pyval)) (pi : PersonalInfo)
    (resume_text job_desc : str) (r : AnalysisResult) :
  _build_result (PDict d) pi resume_text job_desc = Ok r ->
  (dict_get d (lit "summary") (PStr []) = PNone -> summary r = lit "None")
  /\ (dict_get d (lit "cover_letter") (PStr []) = PNone ->
      cover_letter r = lit "None")
  /\ (forall s, dict_get d (lit "summary") (PStr []) = PStr s ->
        forallb isspace s = true ->
        summary r = _generate_fallback_summary resume_text job_desc)
  /\ (forall s, dict_get d (lit "cover_letter") (PStr []) = PStr s ->
        forallb isspace s = true ->
        cover_letter r = _generate_fallback_cover_letter (name pi) job_desc).
Proof.
  rewrite build_result_mapping.
  destruct (_extract_score _) as [n|e]; [|discriminate].
  cbn [bind]. intros [= <-]. cbn [summary cover_letter].
  repeat split.
  - intros ->. reflexivity.
  - intros ->. reflexivity.
  - intros s -> Hs. cbn [py_str]. rewrite (strip_blank s Hs). reflexivity.
  - intros s -> Hs. cbn [py_str]. rewrite (strip_blank s Hs). reflexivity.
Qed.

Lemma null_summary_is_kept_witness :
  exists r,
    _build_result (PDict [(lit "summary", PNone)]) nobody [] [] = Ok r
    /\ summary r = lit "None".
Proof.
  destruct (_build_result (PDict [(lit "summary", PNone)]) nobody [] [])
    as [r|e] eqn:E.
  - exists r. split; [reflexivity|].
    apply (proj1 (null_summary_is_kept _ _ _ _ _ E)). reflexivity.
  - exfalso. vm_compute in E. discriminate E.
Defined.
